(** * Ursabot command line interface

    A shallow embedding of [src/ursabot/cli.py]: the log relay
    [_handle_stdio_log], the volume injector [_use_local_sources], the image
    filter built by the [docker] group and the [project build] command
    [project_build], followed by the properties proved about them.

    Python values are modelled as the code uses them: [str] as [string],
    [int] as [Z], [None]-able options as [option], a [dict] as an association
    list in insertion order, raised exceptions as an explicit outcome, and the
    objects mutated by the command (the builder's volume list, the class
    attribute [Source.notReally], the console) as fields of an explicit
    process state. *)

From Stdlib Require Import String Ascii List ZArith Bool Arith Lia.
From Stdlib Require Import DecimalString.
Import ListNotations.
Local Open Scope string_scope.
Local Open Scope list_scope.

(** ** Python built-ins used by the module *)

Module Py.

(** The one-character string ["\n"]. *)
Definition nl : string := String (ascii_of_nat 10) EmptyString.

(** [s.startswith(p)] *)
Fixpoint startswith (s p : string) {struct p} : bool :=
  match p with
  | EmptyString => true
  | String a p' =>
      match s with
      | EmptyString => false
      | String b s' => Ascii.eqb b a && startswith s' p'
      end
  end.

(** [s[1:]] *)
Definition slice_from_1 (s : string) : string :=
  match s with
  | EmptyString => EmptyString
  | String _ rest => rest
  end.

(** [s[:1]] *)
Definition slice_to_1 (s : string) : string :=
  match s with
  | EmptyString => EmptyString
  | String c _ => String c EmptyString
  end.

(** [bool(s)] for a [str]: the empty string is falsy. *)
Definition truthy (s : string) : bool :=
  match s with
  | EmptyString => false
  | String _ _ => true
  end.

(** [s.count(c)] for a one-character [c]. *)
Fixpoint count (c : ascii) (s : string) : nat :=
  match s with
  | EmptyString => 0
  | String a rest => (if Ascii.eqb a c then 1 else 0) + count c rest
  end.

(** [s.split(c)] for a one-character separator [c]: the string is cut at
    every occurrence of [c], empty pieces are kept. *)
Fixpoint split (c : ascii) (s : string) : list string :=
  match s with
  | EmptyString => [EmptyString]
  | String a rest =>
      match split c rest with
      | [] => [String a EmptyString]
      | w :: ws =>
          if Ascii.eqb a c then EmptyString :: w :: ws
          else String a w :: ws
      end
  end.

(** [sep.join(l)] *)
Definition join (sep : string) (l : list string) : string :=
  String.concat sep l.

(** [str(n)] / [f'{n}'] for an [int]: decimal digits, a leading [-] for
    negative numbers. *)
Definition str_int (n : Z) : string :=
  NilZero.string_of_int (Z.to_int n).

(** A [dict] with [str] keys and values: the items in insertion order,
    keys unique. *)
Definition dict := list (string * string).

(** [d[k] = v]: an existing key keeps its position and takes the new value,
    a new key goes last. *)
Fixpoint setitem (d : dict) (k v : string) : dict :=
  match d with
  | [] => [(k, v)]
  | (k', v') :: d' =>
      if String.eqb k' k then (k', v) :: d'
      else (k', v') :: setitem d' k v
  end.

(** [L[i]] for a list: negative indices count from the end, an index out of
    range is an [IndexError] ([None]). *)
Definition getitem {A} (L : list A) (i : Z) : option A :=
  let n := Z.of_nat (length L) in
  if (0 <=? i)%Z then nth_error L (Z.to_nat i)
  else if (0 <=? n + i)%Z then nth_error L (Z.to_nat (n + i))
  else None.

End Py.

(** ** The part of [click] the module relies on *)

Module Click.

Inductive Colour := blue | red | green.

(** What is handed to [click.echo]: a plain [str] or the result of
    [click.style(s, fg=colour)]. *)
Inductive Text :=
| plain (s : string)
| style (s : string) (fg : Colour).

End Click.

(** ** Exceptions *)

(** The exceptions the modelled code raises or lets through.
    [UsageError] is a subclass of [ClickException]; [UrsabotConfigErrors]
    is the subclass of [ClickException] defined by the module itself. *)
Inductive Exn :=
| ClickException (message : string)
| UsageError (message : string)
| UrsabotConfigErrors (errors : list string)
| ValueError (message : string)
| KeyError (key : string)
| IndexError
| AssertionError
| RuntimeError (message : string).

(** [isinstance(e, click.UsageError)] *)
Definition is_UsageError (e : Exn) : bool :=
  match e with
  | UsageError _ => true
  | _ => false
  end.

(** [isinstance(e, click.ClickException)] *)
Definition is_ClickException (e : Exn) : bool :=
  match e with
  | ClickException _ | UsageError _ | UrsabotConfigErrors _ => true
  | _ => false
  end.

(** The text a [ClickException] carries ([e.message]); the other exceptions
    are not reported through click. *)
Definition message_of (e : Exn) : option string :=
  match e with
  | ClickException m | UsageError m => Some m
  | _ => None
  end.

(** The status the process ends with when the command raises [e]: click
    exits with the exception's [exit_code] (1 for [ClickException], 2 for
    [UsageError]); any other exception ends the interpreter with status 1. *)
Definition exit_code (e : Exn) : Z :=
  match e with
  | UsageError _ => 2
  | _ => 1
  end.

(** How a call ends. *)
Inductive Outcome (A : Type) :=
| Returned (a : A)
| Raised (e : Exn).
Arguments Returned {A} a.
Arguments Raised {A} e.

(** The process exit status of a command. *)
Definition exit_status {A} (o : Outcome A) : Z :=
  match o with
  | Returned _ => 0
  | Raised e => exit_code e
  end.

(** [dict(items)] for an iterable of sequences: every element must have
    length 2, otherwise a [ValueError] names its position and length. *)
Fixpoint dict_update_seq (i : nat) (d : Py.dict) (items : list (list string))
  : Outcome Py.dict :=
  match items with
  | [] => Returned d
  | [k; v] :: rest => dict_update_seq (S i) (Py.setitem d k v) rest
  | item :: _ =>
      Raised (ValueError
        ("dictionary update sequence element #" ++ Py.str_int (Z.of_nat i)
         ++ " has length " ++ Py.str_int (Z.of_nat (length item))
         ++ "; 2 is required"))
  end.

Definition py_dict (items : list (list string)) : Outcome Py.dict :=
  dict_update_seq 0 [] items.

(** ** [pathlib.Path] on a POSIX system

    [Path(s)], [Path.expanduser()] and [str(path)] as CPython's [pathlib]
    computes them for [PosixPath]; the drive is always empty there. *)

Module Pathlib.

(** [s.lstrip(c)] for a one-character [c]. *)
Fixpoint lstrip (c : ascii) (s : string) : string :=
  match s with
  | EmptyString => EmptyString
  | String a rest => if Ascii.eqb a c then lstrip c rest else s
  end.

(** [_PosixFlavour.splitroot]: the root (["/"], ["//"] for exactly two
    leading slashes, or empty) and the rest. *)
Definition splitroot (part : string) : string * string :=
  if Py.startswith part "/" then
    let stripped_part := lstrip "/" part in
    if Nat.eqb (String.length part - String.length stripped_part) 2
    then ("//", stripped_part)
    else ("/", stripped_part)
  else (EmptyString, part).

(** [x and x != '.'] *)
Definition keeps (x : string) : bool :=
  Py.truthy x && negb (String.eqb x ".").

(** The loop of [parse_parts] over [reversed(parts)]: the components are
    collected last to first, and the loop stops at the first part (from
    the end) that has a root. *)
Fixpoint parse_reversed (it : list string) : string * list string :=
  match it with
  | [] => (EmptyString, [])
  | part :: it' =>
      if negb (Py.truthy part) then parse_reversed it'
      else
        let '(root, rel) := splitroot part in
        let parsed := rev (filter keeps (Py.split "/" rel)) in
        if Py.truthy root then (root, parsed)
        else
          let '(root', parsed') := parse_reversed it' in
          (root', parsed ++ parsed')
  end.

(** A parsed path: [_root] and [_parts] (the root, when there is one, is
    the first of the parts). *)
Record Path := { _root : string; _parts : list string }.

(** [_flavour.parse_parts(parts)] *)
Definition parse_parts (parts : list string) : Path :=
  let '(root, parsed) := parse_reversed (rev parts) in
  let parsed := if Py.truthy root then parsed ++ [root] else parsed in
  {| _root := root; _parts := rev parsed |}.

(** [Path(s)] *)
Definition of_str (s : string) : Path := parse_parts [s].

(** [str(path)] *)
Definition str (p : Path) : string :=
  let formatted :=
    if Py.truthy (_root p)
    then (_root p ++ Py.join "/" (tl (_parts p)))%string
    else Py.join "/" (_parts p) in
  if Py.truthy formatted then formatted else ".".

(** [path.is_absolute()] *)
Definition is_absolute (p : Path) : bool := Py.truthy (_root p).

Section Expanduser.

(** The lookups behind [_flavour.gethomedir(username)]: the home directory
    of the named user in the password database, and for the empty name
    that of the current user ([$HOME], else the password database);
    [None] when there is no such entry. *)
Variable gethomedir : string -> option string.

(** [path.expanduser()]. A missing entry for a named user is turned into a
    [RuntimeError]; for the current user the [KeyError] of [pwd.getpwuid]
    comes through. *)
Definition expanduser (p : Path) : Outcome Path :=
  match _parts p with
  | first :: others =>
      if negb (Py.truthy (_root p))
         && String.eqb (Py.slice_to_1 first) "~"
      then
        let username := Py.slice_from_1 first in
        match gethomedir username with
        | Some homedir => Returned (parse_parts (homedir :: others))
        | None =>
            if Py.truthy username then
              Raised (RuntimeError
                ("Can't determine home directory for '" ++ username ++ "'"))
            else Raised (KeyError "getpwuid(): uid not found")
        end
      else Returned p
  | [] => Returned p
  end.

End Expanduser.

End Pathlib.

(** ** Data model *)

(** [util.Interpolate(fmtstring)]: a volume specification rendered by the
    worker from the build's properties. *)
Inductive Renderable :=
| Interpolate (fmtstring : string).

(** A builder of the project: its name, whether it is an instance of
    [DockerBuilder], and its (mutable) list of volumes. *)
Record Builder := {
  b_name : string;
  b_isdocker : bool;
  b_volumes : list Renderable
}.

(** The selected project: [project.name], [project.repo] and
    [project.builders]. *)
Record Project := {
  p_name : string;
  p_repo : string;
  p_builders : list Builder
}.

(** The sourcestamp dictionary handed to [master.build]. *)
Record SourceStamp := {
  ss_codebase : string;
  ss_repository : string;
  ss_branch : string;
  ss_revision : option string;
  ss_project : string
}.

(** The dictionary [master.build] resolves to: [result['complete']] and
    [result['results']] (the key may be missing). *)
Record BuildResult := {
  complete : bool;
  results : option Z
}.

(** The names imported from [buildbot.process.results]: four result codes
    and the list of their names, indexed by code. *)
Record ResultCodes := {
  SUCCESS : Z;
  WARNINGS : Z;
  FAILURE : Z;
  EXCEPTION : Z;
  Results : list string
}.

(** The values buildbot gives them. *)
Definition buildbot_results : ResultCodes := {|
  SUCCESS := 0;
  WARNINGS := 1;
  FAILURE := 2;
  EXCEPTION := 4;
  Results := ["success"; "warnings"; "failure"; "skipped"; "exception";
              "retry"; "cancelled"]
|}.

(** What the command does to the outside, in order. *)
Inductive Event :=
| observer_start
| echo (message : Click.Text)
| master_created (attach_on : list Z)
| master_started
| build_triggered (builder : string) (sourcestamp : SourceStamp)
    (properties : Py.dict)
| master_stopped
| reactor_stopped.

(** The state of the process the command runs in: the project object (with
    its builders, which the command mutates), the class attribute
    [Source.notReally] of [buildbot.steps.source] ([None] when the class has
    no such attribute) and what has happened so far. *)
Record State := {
  project : Project;
  Source_notReally : option bool;
  trace : list Event
}.

(** What the ephemeral master does once the command hands over to it:
    [TestMaster(...)] raises [ConfigErrors]; or entering [async with master]
    fails; or [master.build] relays the log batches to the log handler and
    then raises or resolves to a result. *)
Inductive MasterBehaviour :=
| config_errors (errors : list string)
| start_fails
| build_raises (logs : list (list string))
| build_returns (logs : list (list string)) (result : BuildResult).

(** ** Stateful computations that may raise *)

Definition M (A : Type) : Type := State -> Outcome A * State.

Definition ret {A} (a : A) : M A := fun st => (Returned a, st).

Definition bind {A B} (m : M A) (k : A -> M B) : M B :=
  fun st =>
    match m st with
    | (Returned a, st') => k a st'
    | (Raised e, st') => (Raised e, st')
    end.

Definition raise {A} (e : Exn) : M A := fun st => (Raised e, st).

(** A pure call that may raise. *)
Definition lift {A} (o : Outcome A) : M A := fun st => (o, st).

Definition get : M State := fun st => (Returned st, st).

Definition emit (ev : Event) : M unit :=
  fun st =>
    (Returned tt,
     {| project := project st;
        Source_notReally := Source_notReally st;
        trace := trace st ++ [ev] |}).

Declare Scope py_scope.
Delimit Scope py_scope with py.
Notation "x <- m ;; k" := (bind m (fun x => k))
  (at level 61, m at next level, right associativity) : py_scope.
Notation "m ;; k" := (bind m (fun _ => k))
  (at level 61, right associativity) : py_scope.
Local Open Scope py_scope.

(** [for x in xs: body(x)] *)
Fixpoint for_each {A} (xs : list A) (body : A -> M unit) : M unit :=
  match xs with
  | [] => ret tt
  | x :: xs' => body x ;; for_each xs' body
  end.

(** [click.echo(message)] *)
Definition click_echo (message : Click.Text) : M unit := emit (echo message).

(** ** The log relay *)

(** [_handle_stdio_log(newlines)] *)
Definition _handle_stdio_log (newlines : list string) : M unit :=
  for_each newlines (fun l =>
    if Py.startswith l "h" then
      click_echo (Click.style (Py.slice_from_1 l) Click.blue)
    else if Py.startswith l "e" then
      click_echo (Click.style (Py.slice_from_1 l) Click.red)
    else if Py.startswith l "o" then
      click_echo (Click.plain (Py.slice_from_1 l))
    else
      click_echo (Click.plain l)).

(** ** The volume injector *)

(** [builder.volumes.extend(volumes)] for the builder at position [i] of
    [project.builders]. *)
Definition extend_volumes (i : nat) (volumes : list Renderable) : M unit :=
  fun st =>
    let p := project st in
    let builders :=
      match nth_error (p_builders p) i with
      | Some b =>
          firstn i (p_builders p)
          ++ {| b_name := b_name b;
                b_isdocker := b_isdocker b;
                b_volumes := b_volumes b ++ volumes |}
          :: skipn (S i) (p_builders p)
      | None => p_builders p
      end in
    (Returned tt,
     {| project := {| p_name := p_name p;
                      p_repo := p_repo p;
                      p_builders := builders |};
        Source_notReally := Source_notReally st;
        trace := trace st |}).

(** [Source.notReally = value] *)
Definition set_notReally (value : bool) : M unit :=
  fun st =>
    (Returned tt,
     {| project := project st;
        Source_notReally := Some value;
        trace := trace st |}).

Section VolumeInjector.

Variable gethomedir : string -> option string.

(** The loop of [_use_local_sources] over [sources.items()], building the
    local list [volumes]. *)
Fixpoint source_volumes (items : Py.dict) : Outcome (list Renderable) :=
  match items with
  | [] => Returned []
  | (src, dst) :: items' =>
      match Pathlib.expanduser gethomedir (Pathlib.of_str src) with
      | Raised e => Raised e
      | Returned src =>
          match source_volumes items' with
          | Raised e => Raised e
          | Returned volumes =>
              Returned
                (Interpolate
                   (Pathlib.str src
                    ++ ":%(prop:docker_workdir)s/%(prop:builddir)s/"
                    ++ dst ++ ":rw")
                 :: volumes)
          end
      end
  end.

(** [_use_local_sources(builder, sources)], the builder being the one at
    position [builder] of [project.builders]. *)
Definition _use_local_sources (builder : nat) (sources : Py.dict) : M unit :=
  volumes <- lift (source_volumes sources) ;;
  extend_volumes builder volumes ;;
  st <- get ;;
  match Source_notReally st with
  | None => raise AssertionError
  | Some _ => set_notReally true
  end.

End VolumeInjector.

(** ** The image filter *)

Module FilterEngine.

#[local] Set Warnings "-register-all".

(** An attribute of a descriptor: a string, unset, or a nested group of
    named attributes (the descriptor itself is the outermost group). *)
Inductive Attr :=
| attr_str (s : string)
| attr_unset
| attr_group (attrs : list (string * Attr)).

(** What the [docker] group builds: [Matching(pattern)], the pattern being
    a string or [None], and [Filter(key=condition, ...)]. *)
Inductive Condition :=
| Matching (pattern : option string)
| Filter (conditions : list (string * Condition)).

(** Modelled from the spec: wildcard matching as section 4.1 describes it
    (the matcher is in [utils.py], which is not part of the sources): [*]
    stands for any sequence of characters, [?] for any single character,
    every other character for itself. *)
Fixpoint glob (pattern : string) : string -> bool :=
  match pattern with
  | EmptyString => fun s => negb (Py.truthy s)
  | String a pattern' =>
      if Ascii.eqb a "*" then
        fix star (s : string) : bool :=
          glob pattern' s
          || match s with
             | EmptyString => false
             | String _ s' => star s'
             end
      else if Ascii.eqb a "?" then
        fun s =>
          match s with
          | EmptyString => false
          | String _ s' => glob pattern' s'
          end
      else
        fun s =>
          match s with
          | EmptyString => false
          | String b s' => Ascii.eqb a b && glob pattern' s'
          end
  end.

(** Modelled from the spec: [Matching] of [utils.py] against one
    attribute. A string pattern matches a string attribute by [glob]; the
    unset marker [None] matches exactly the unset attribute. *)
Definition matching (pattern : option string) (a : Attr) : bool :=
  match pattern, a with
  | Some p, attr_str s => glob p s
  | None, attr_unset => true
  | _, _ => false
  end.

(** The attribute named [key] of a group; nothing else has attributes. *)
Fixpoint assoc (key : string) (attrs : list (string * Attr)) : option Attr :=
  match attrs with
  | [] => None
  | (k, a) :: attrs' => if String.eqb k key then Some a else assoc key attrs'
  end.

Definition getattr (a : Attr) (key : string) : option Attr :=
  match a with
  | attr_group attrs => assoc key attrs
  | _ => None
  end.

(** Modelled from the spec: [Filter.__call__] of [utils.py]. Every
    condition of the filter is checked against the attribute of the same
    name, a nested filter against the nested group; an attribute the
    descriptor does not have is a non-match. *)
Fixpoint matches (c : Condition) (a : Attr) : bool :=
  match c with
  | Matching pattern => matching pattern a
  | Filter conditions =>
      (fix every (cs : list (string * Condition)) : bool :=
         match cs with
         | [] => true
         | (key, c') :: cs' =>
             match getattr a key with
             | Some v => matches c' v
             | None => false
             end
             && every cs'
         end) conditions
  end.

(** The invariant of section 3 in its own words: a descriptor matches a
    predicate when every attribute the predicate constrains matches the
    descriptor's attribute of that name, nested groups likewise. Compared
    with [matches] further down. *)
Inductive Matches : Condition -> Attr -> Prop :=
| Matches_pattern pattern a :
    matching pattern a = true -> Matches (Matching pattern) a
| Matches_filter conditions a :
    (forall key c, In (key, c) conditions ->
     exists v, getattr a key = Some v /\ Matches c v) ->
    Matches (Filter conditions) a.

(** The filter the [docker] group builds from its options. *)
Definition image_filter (name tag variant : string) (no_variant : bool)
    (arch system distro : string) : Condition :=
  let variant := if no_variant then None else Some variant in
  Filter
    [("name", Matching (Some name));
     ("tag", Matching (Some tag));
     ("variant", Matching variant);
     ("platform",
       Filter
         [("arch", Matching (Some arch));
          ("system", Matching (Some system));
          ("distro", Matching (Some distro))])].

(** [ImageCollection(i for i in config.images if image_filter(i))] *)
Definition filtered (images : list Attr) (image_filter : Condition)
  : list Attr :=
  filter (matches image_filter) images.

End FilterEngine.

(** ** The build command *)

(** Modelled from the spec: [Project.builder(name=...)] of [configs.py],
    which is not part of the sources. The builder is looked up by name among
    [project.builders]; the result is its position and the builder, [None]
    where the method raises [KeyError]. *)
Fixpoint find_builder (builders : list Builder) (name : string) (i : nat)
  : option (nat * Builder) :=
  match builders with
  | [] => None
  | b :: builders' =>
      if String.eqb (b_name b) name then Some (i, b)
      else find_builder builders' name (S i)
  end.

Definition Project_builder (p : Project) (name : string)
  : option (nat * Builder) :=
  find_builder (p_builders p) name 0.

(** [bool(d)] for a [dict] *)
Definition dict_truthy (d : Py.dict) : bool :=
  match d with
  | [] => false
  | _ :: _ => true
  end.

Section ProjectBuild.

(** The environment of one invocation. *)
Variable gethomedir : string -> option string.
Variable codes : ResultCodes.
(** [str(builder)] *)
Variable Builder_str : Builder -> string.
Variable master : MasterBehaviour.

(** [TestMaster(config, attach_on=attach_on, log_handler=...)] inside the
    [try] that turns [ConfigErrors] into [UrsabotConfigErrors]. *)
Definition TestMaster (attach_on : list Z) : M unit :=
  match master with
  | config_errors errors => raise (UrsabotConfigErrors errors)
  | _ => emit (master_created attach_on)
  end.

(** The nested coroutine [run]: the master is started, the build is
    triggered and awaited while its logs go through [_handle_stdio_log],
    the master is stopped and, whatever happened, the reactor is stopped.
    An exception inside [run] ends up in the deferred, not in the command:
    [result] is then left as it was. *)
Definition run (builder_name : string) (sourcestamp : SourceStamp)
    (properties : Py.dict) (result : BuildResult) : M BuildResult :=
  match master with
  | config_errors _ => ret result
  | start_fails =>
      emit reactor_stopped ;;
      ret result
  | build_raises logs =>
      emit master_started ;;
      emit (build_triggered builder_name sourcestamp properties) ;;
      for_each logs _handle_stdio_log ;;
      emit master_stopped ;;
      emit reactor_stopped ;;
      ret result
  | build_returns logs result' =>
      emit master_started ;;
      emit (build_triggered builder_name sourcestamp properties) ;;
      for_each logs _handle_stdio_log ;;
      emit master_stopped ;;
      emit reactor_stopped ;;
      ret result'
  end.

(** [project_build(obj, builder_name, repo, branch, commit, pull_request,
    properties, sources, attach_on_failure)], [obj['project']] being the
    project of the state. *)
Definition project_build (builder_name : string) (repo : option string)
    (branch : string) (commit : option string) (pull_request : option Z)
    (properties sources : list string) (attach_on_failure : bool)
  : M unit :=
  emit observer_start ;;
  st <- get ;;
  let project := project st in
  (* check that the triggerable builder exists *)
  builder <-
    match Project_builder project builder_name with
    | None =>
        let available :=
          Py.join Py.nl
            (map (fun b => (" - " ++ b_name b)%string) (p_builders project)) in
        raise (ClickException
          ("Project " ++ p_name project
           ++ " doesn't have a builder named `" ++ builder_name ++ "`."
           ++ Py.nl ++ " Select one from the following list: " ++ Py.nl
           ++ available))
    | Some (i, b) =>
        click_echo (Click.plain ("Triggering builder: " ++ Builder_str b)) ;;
        ret (i, b)
    end ;;
  (* convert the sources and properties to a plain mapping *)
  sources <- lift (py_dict (map (Py.split ":") sources)) ;;
  properties <- lift (py_dict (map (Py.split "=") properties)) ;;
  (* if local source directories are passed add them as docker volumes *)
  (if dict_truthy sources then
     if negb (b_isdocker (snd builder)) then
       raise (UsageError
         "Mounting source directories is a feature only available for docker builders.")
     else _use_local_sources gethomedir (fst builder) sources
   else ret tt) ;;
  (* construct the sourcestamp which will trigger the builders *)
  let branch :=
    match pull_request with
    | Some pr => ("refs/pull/" ++ Py.str_int pr ++ "/merge")%string
    | None => branch
    end in
  let sourcestamp :=
    {| ss_codebase := EmptyString;
       ss_repository :=
         match repo with
         | Some r => if Py.truthy r then r else p_repo project
         | None => p_repo project
         end;
       ss_branch := branch;
       ss_revision := commit;
       ss_project := p_name project |} in
  let attach_on :=
    if attach_on_failure then [FAILURE codes; EXCEPTION codes] else [] in
  let result := {| complete := false; results := None |} in
  TestMaster attach_on ;;
  result <- run (b_name (snd builder)) sourcestamp properties result ;;
  if negb (complete result) then
    raise (ClickException "Build has not completed!")
  else
    (* 'results' refers to the final state of the build *)
    match results result with
    | None => raise (KeyError "results")
    | Some state =>
        if Z.eqb state (SUCCESS codes) || Z.eqb state (WARNINGS codes) then
          click_echo (Click.style "Build successful!" Click.green)
        else
          match Py.getitem (Results codes) state with
          | None => raise IndexError
          | Some statestring =>
              raise (ClickException
                ("Build has failed with state " ++ statestring))
          end
    end.

End ProjectBuild.

(** ** The log relay as the specification words it

    Section 4.5 of the specification describes the relay as a classifier
    followed by a renderer. The two definitions below follow those words;
    they are compared with [_handle_stdio_log] further down. *)

Module LogRelay.

Inductive Category := Header | Stdout | Stderr | Unknown.

(** The category of a record, from its one-character prefix code. *)
Definition classify (record : string) : Category :=
  match record with
  | EmptyString => Unknown
  | String c _ =>
      if Ascii.eqb c "h" then Header
      else if Ascii.eqb c "o" then Stdout
      else if Ascii.eqb c "e" then Stderr
      else Unknown
  end.

(** The visual treatment of a record of a given category. *)
Definition render (category : Category) (record : string) : Click.Text :=
  match category with
  | Header => Click.style (Py.slice_from_1 record) Click.blue
  | Stderr => Click.style (Py.slice_from_1 record) Click.red
  | Stdout => Click.plain (Py.slice_from_1 record)
  | Unknown => Click.plain record
  end.

End LogRelay.

(** ** Observations on a run *)

(** The state after the events [evs] have happened. *)
Definition add_events (st : State) (evs : list Event) : State :=
  {| project := project st;
     Source_notReally := Source_notReally st;
     trace := trace st ++ evs |}.

(** The events between an earlier state and a later one. *)
Definition events_since (st st' : State) : list Event :=
  skipn (length (trace st)) (trace st').

(** The events that involve the ephemeral master or a build. *)
Definition master_event (ev : Event) : bool :=
  match ev with
  | master_created _ | master_started | build_triggered _ _ _
  | master_stopped | reactor_stopped => true
  | observer_start | echo _ => false
  end.

(** [needle] occurs in [hay]. *)
Definition occurs_in (needle hay : string) : Prop :=
  exists pre post, hay = (pre ++ needle ++ post)%string.

(** What the relay prints for the log batches of a build. *)
Definition log_events (logs : list (list string)) : list Event :=
  flat_map
    (map (fun l => echo (LogRelay.render (LogRelay.classify l) l))) logs.

(** The state once [volumes] have been added to the builder at [i]. *)
Definition with_volumes (st : State) (i : nat) (volumes : list Renderable)
  : State :=
  snd (extend_volumes i volumes st).

(** The state once [Source.notReally] has been set. *)
Definition with_notReally (st : State) : State :=
  snd (set_notReally true st).

(** The volumes of the builder at position [i] of the project. *)
Definition volumes_at (st : State) (i : nat) : option (list Renderable) :=
  option_map b_volumes (nth_error (p_builders (project st)) i).

(** The message of the error raised for an unknown builder. *)
Definition no_builder_message (p : Project) (builder_name : string) : string :=
  "Project " ++ p_name p
  ++ " doesn't have a builder named `" ++ builder_name ++ "`."
  ++ Py.nl ++ " Select one from the following list: " ++ Py.nl
  ++ Py.join Py.nl (map (fun b => (" - " ++ b_name b)%string) (p_builders p)).

(** The error raised when sources are to be mounted on a builder that is
    not a [DockerBuilder]. *)
Definition mounting_error : Exn :=
  UsageError
    "Mounting source directories is a feature only available for docker builders.".

(** *** The build command in steps

    The same command, cut where its comments cut it; [build_steps] below
    shows that [project_build] is the composition of these steps. *)

Section Summary.

Variable gethomedir : string -> option string.
Variable codes : ResultCodes.
Variable Builder_str : Builder -> string.
Variable master : MasterBehaviour.

(** The events up to the conversion of the flags, when the builder
    exists. *)
Definition preamble (b : Builder) : list Event :=
  [observer_start;
   echo (Click.plain ("Triggering builder: " ++ Builder_str b))].

(** Lines 495 to 502: the sources are mounted when there are any. *)
Definition mount_sources (i : nat) (b : Builder) (sources : Py.dict)
  : M unit :=
  if dict_truthy sources then
    if negb (b_isdocker b) then raise mounting_error
    else _use_local_sources gethomedir i sources
  else ret tt.

(** Lines 504 to 513: the sourcestamp. *)
Definition the_sourcestamp (p : Project) (repo : option string)
    (branch : string) (commit : option string) (pull_request : option Z)
  : SourceStamp :=
  {| ss_codebase := EmptyString;
     ss_repository :=
       match repo with
       | Some r => if Py.truthy r then r else p_repo p
       | None => p_repo p
       end;
     ss_branch :=
       match pull_request with
       | Some pr => ("refs/pull/" ++ Py.str_int pr ++ "/merge")%string
       | None => branch
       end;
     ss_revision := commit;
     ss_project := p_name p |}.

Definition the_attach_on (attach_on_failure : bool) : list Z :=
  if attach_on_failure then [FAILURE codes; EXCEPTION codes] else [].

(** The result [project_build] holds once the reactor has stopped. *)
Definition awaited_result : BuildResult :=
  match master with
  | build_returns _ result => result
  | _ => {| complete := false; results := None |}
  end.

(** The events from the creation of the master to the end of the
    reactor. *)
Definition master_events (attach_on : list Z) (builder : string)
    (sourcestamp : SourceStamp) (properties : Py.dict) : list Event :=
  match master with
  | config_errors _ => []
  | start_fails => [master_created attach_on; reactor_stopped]
  | build_raises logs | build_returns logs _ =>
      [master_created attach_on; master_started;
       build_triggered builder sourcestamp properties]
      ++ log_events logs ++ [master_stopped; reactor_stopped]
  end.

(** Lines 538 to 549: how the command ends for a given result, and what it
    prints last. *)
Definition report (result : BuildResult) : Outcome unit * list Event :=
  if negb (complete result) then
    (Raised (ClickException "Build has not completed!"), [])
  else
    match results result with
    | None => (Raised (KeyError "results"), [])
    | Some state =>
        if Z.eqb state (SUCCESS codes) || Z.eqb state (WARNINGS codes) then
          (Returned tt,
           [echo (Click.style "Build successful!" Click.green)])
        else
          match Py.getitem (Results codes) state with
          | None => (Raised IndexError, [])
          | Some statestring =>
              (Raised (ClickException
                 ("Build has failed with state " ++ statestring)), [])
          end
    end.

(** Lines 515 to 549 from a state [st]. *)
Definition conclude (b : Builder) (sourcestamp : SourceStamp)
    (properties : Py.dict) (attach_on_failure : bool) (st : State)
  : Outcome unit * State :=
  match master with
  | config_errors errors => (Raised (UrsabotConfigErrors errors), st)
  | _ =>
      (fst (report awaited_result),
       add_events st
         (master_events (the_attach_on attach_on_failure) (b_name b)
            sourcestamp properties
          ++ snd (report awaited_result)))
  end.

(** How the command ends, read off its inputs: the first failure on the way
    to the master, else the report on the awaited result. *)
Definition outcome (builder_name : string) (properties sources : list string)
    (st : State) : Outcome unit :=
  match Project_builder (project st) builder_name with
  | None =>
      Raised (ClickException (no_builder_message (project st) builder_name))
  | Some (i, b) =>
      match py_dict (map (Py.split ":") sources) with
      | Raised e => Raised e
      | Returned sd =>
          match py_dict (map (Py.split "=") properties) with
          | Raised e => Raised e
          | Returned pd =>
              match fst (mount_sources i b sd st) with
              | Raised e => Raised e
              | Returned _ =>
                  match master with
                  | config_errors errors =>
                      Raised (UrsabotConfigErrors errors)
                  | _ => fst (report awaited_result)
                  end
              end
          end
      end
  end.

End Summary.

(** ** The command groups and the describing commands *)

(** The master configuration, as far as these commands read it:
    [config.projects]. *)
Record MasterConfig := {
  c_projects : list Project
}.

(** The dictionary [ctx.obj] that the groups fill for their commands:
    [obj['verbose']], [obj['config']], [obj['config_path']] and, once the
    [project] group has run, [obj['project']]. *)
Record Obj := {
  o_verbose : bool;
  o_config : MasterConfig;
  o_config_path : Pathlib.Path;
  o_project : option Project
}.

(** [MasterConfig.project(name=...)] of [configs.py], which is not part of
    the sources: as its call site shows, the project is looked up by name,
    and a missing name raises [KeyError] ([None]). *)
Fixpoint MasterConfig_project (projects : list Project) (name : string)
  : option Project :=
  match projects with
  | [] => None
  | p :: projects' =>
      if String.eqb (p_name p) name then Some p
      else MasterConfig_project projects' name
  end.

(** [obj['project'] = project] *)
Definition set_project (obj : Obj) (p : Project) : Obj :=
  {| o_verbose := o_verbose obj;
     o_config := o_config obj;
     o_config_path := o_config_path obj;
     o_project := Some p |}.

(** The group [project(obj, project)], lines 106 to 128. *)
Definition project_group (obj : Obj) (project : option string)
  : Outcome Obj :=
  let config := o_config obj in
  let project_names := Py.join ", " (map p_name (c_projects config)) in
  match project with
  | None =>
      if Nat.eqb (length (c_projects config)) 1 then
        match Py.getitem (c_projects config) 0 with
        | Some p => Returned (set_project obj p)
        | None => Raised IndexError
        end
      else
        Raised (UsageError
          ("Master config has multiple projects, one must be selected: "
           ++ project_names))
  | Some name =>
      match MasterConfig_project (c_projects config) name with
      | Some p => Returned (set_project obj p)
      | None =>
          Raised (UsageError
            ("Invalid project name " ++ name ++ ", possible values are: "
             ++ project_names))
      end
  end.

(** The helper [ul(values)] of the two [desc] commands. *)
Definition ul (values : list string) : string :=
  Py.join Py.nl (map (fun v => (" - " ++ v)%string) values).

(** [project_desc(obj)], lines 154 to 171, [obj['project']] being the
    project of the state; [images] stands for [i.fqn for i in
    project.images] and [workers] for the workers as [str] shows them. *)
Definition project_desc (images workers : list string) : M unit :=
  st <- get ;;
  let project := project st in
  click_echo (Click.plain ("Name: " ++ p_name project)) ;;
  click_echo (Click.plain ("Repo: " ++ p_repo project)) ;;
  click_echo (Click.plain EmptyString) ;;
  click_echo (Click.plain "Docker images:") ;;
  click_echo (Click.plain (ul images)) ;;
  click_echo (Click.plain EmptyString) ;;
  click_echo (Click.plain "Workers:") ;;
  click_echo (Click.plain (ul workers)) ;;
  click_echo (Click.plain EmptyString) ;;
  click_echo (Click.plain "Builders:") ;;
  click_echo (Click.plain (ul (map b_name (p_builders project)))) ;;
  click_echo (Click.plain EmptyString).

(** What the top-level group writes: a line on standard output
    ([click.echo(t)]), a line on standard error ([click.echo(t, err=True)]),
    or a logger set to [logging.INFO]. *)
Inductive Output :=
| to_stdout (message : Click.Text)
| to_stderr (message : Click.Text)
| set_level_info (logger : string).

(** What [Config.load_from] did: it returned a [MasterConfig], returned
    something else (of a type printed as [type_repr]), raised
    [ConfigErrors], or raised another exception. *)
Inductive Loaded :=
| loaded_config (config : MasterConfig)
| loaded_other (type_repr : string)
| load_config_errors (errors : list string)
| load_raises (e : Exn).

(** One call of [Config.load_from] as the group sees it: its result, the
    messages of the warnings that [warnings.catch_warnings(record=True)]
    recorded during the call (those that passed the warning filters in
    force; a warning that a filter ignores or that was already given is not
    recorded and never reaches the group), and what the call wrote on the
    redirected standard output and standard error. *)
Record Loading := {
  l_result : Loaded;
  l_warnings : list string;
  l_stdout : string;
  l_stderr : string
}.

(** The [finally] block of the group, lines 79 to 86. *)
Definition ursabot_finally (load : Loading) (verbose : bool) : list Output :=
  map (fun w => to_stderr (Click.style w Click.red)) (l_warnings load)
  ++ (if verbose then
        (if Py.truthy (l_stderr load)
         then [to_stderr (Click.style (l_stderr load) Click.red)] else [])
        ++ (if Py.truthy (l_stdout load)
            then [to_stdout (Click.plain (l_stdout load))] else [])
      else []).

(** The group [ursabot(ctx, verbose, config_path, config_variable)], lines
    59 to 98: what it writes, and the [ctx.obj] it leaves or the exception
    it ends with. *)
Definition ursabot (load : Loading) (verbose : bool)
    (config_path config_variable : string) : list Output * Outcome Obj :=
  let logging := if verbose then [set_level_info "ursabot"] else [] in
  let written := logging ++ ursabot_finally load verbose in
  match l_result load with
  | load_config_errors errors => (written, Raised (UrsabotConfigErrors errors))
  | load_raises e => (written, Raised e)
  | loaded_other type_repr =>
      (written,
       Raised (UsageError
         ("The loaded variable `" ++ config_variable ++ "` from `"
          ++ config_path ++ "` has type `" ++ type_repr
          ++ "` whereas it needs to be an instance of MasterConfig")))
  | loaded_config config =>
      (written,
       Returned {| o_verbose := verbose;
                   o_config := config;
                   o_config_path := Pathlib.of_str config_path;
                   o_project := None |})
  end.

(** ** More of [pathlib]: [parent], [name] and [absolute] *)

Module PathOps.

(** [path.parent] *)
Definition parent (p : Pathlib.Path) : Pathlib.Path :=
  if Nat.eqb (length (Pathlib._parts p)) 1 && Py.truthy (Pathlib._root p)
  then p
  else {| Pathlib._root := Pathlib._root p;
          Pathlib._parts := removelast (Pathlib._parts p) |}.

(** [path.name] *)
Definition name (p : Pathlib.Path) : string :=
  if Nat.eqb (length (Pathlib._parts p))
       (if Py.truthy (Pathlib._root p) then 1 else 0)
  then EmptyString
  else last (Pathlib._parts p) EmptyString.

(** [path.absolute()], [cwd] being what [os.getcwd()] returns. *)
Definition absolute (cwd : string) (p : Pathlib.Path) : Pathlib.Path :=
  if Pathlib.is_absolute p then p
  else Pathlib.parse_parts (cwd :: Pathlib._parts p).

(** [obj['config_path'].parent.absolute()], the [basedir] that
    [upgrade_master], [start_master], [stop_master] and [restart_master]
    hand to buildbot. *)
Definition basedir (cwd : string) (obj : Obj) : Pathlib.Path :=
  absolute cwd (parent (o_config_path obj)).

End PathOps.

(** [d.get(k)] for a [dict] *)
Fixpoint dict_get (d : Py.dict) (k : string) : option string :=
  match d with
  | [] => None
  | (k', v) :: d' => if String.eqb k' k then Some v else dict_get d' k
  end.

(** ** A sample installation, for the examples *)

Module Sample.

(** Only the current user has a home directory. *)
Definition gethomedir (username : string) : option string :=
  if String.eqb username EmptyString then Some "/home/ursabot" else None.

Definition Builder_str (b : Builder) : string :=
  "<Builder '" ++ b_name b ++ "'>".

Definition plain_builder : Builder :=
  {| b_name := "test-builder"; b_isdocker := false; b_volumes := [] |}.

Definition docker_builder : Builder :=
  {| b_name := "docker-builder";
     b_isdocker := true;
     b_volumes := [Interpolate "/var/cache:/cache:rw"] |}.

Definition the_project : Project :=
  {| p_name := "ursabot";
     p_repo := "https://github.com/ursa-labs/ursabot";
     p_builders := [plain_builder; docker_builder] |}.

Definition start : State :=
  {| project := the_project; Source_notReally := Some false; trace := [] |}.

(** A build that logs four records and ends with the given result code. *)
Definition finishes (state : Z) : MasterBehaviour :=
  build_returns [["hstarting"; "ocompiled"]; ["ewarning: unused"; "done"]]
    {| complete := true; results := Some state |}.

End Sample.

(** * Properties *)

(** ** Strings and dictionaries *)

Lemma split_not_nil c s : Py.split c s <> [].
Proof.
  destruct s as [|a s]; simpl; [discriminate|].
  destruct (Py.split c s); [discriminate|].
  destruct (Ascii.eqb a c); discriminate.
Qed.

(** [s.split(c)] has one piece more than [c] has occurrences in [s]. *)
Lemma split_length c s : length (Py.split c s) = S (Py.count c s).
Proof.
  induction s as [|a s IH]; simpl; [reflexivity|].
  destruct (Py.split c s) as [|w ws] eqn:E.
  - now destruct (split_not_nil c s).
  - destruct (Ascii.eqb a c); simpl in *; lia.
Qed.

Lemma split_pair c s :
  Py.count c s = 1 -> exists k v, Py.split c s = [k; v].
Proof.
  intros H. pose proof (split_length c s) as L. rewrite H in L.
  destruct (Py.split c s) as [|k [|v [|x l]]]; simpl in L; try lia.
  now exists k, v.
Qed.

Lemma setitem_not_nil d k v : Py.setitem d k v <> [].
Proof.
  destruct d as [|[k' v'] d]; simpl; [discriminate|].
  destruct (String.eqb k' k); discriminate.
Qed.

(** Flags that all hold exactly one separator make a dictionary. *)
Lemma dict_update_seq_ok c flags : forall i d,
  Forall (fun s => Py.count c s = 1) flags ->
  exists d', dict_update_seq i d (map (Py.split c) flags) = Returned d'
             /\ (flags <> [] -> d' <> []) /\ (flags = [] -> d' = d).
Proof.
  induction flags as [|s flags IH]; intros i d H; simpl.
  - exists d. repeat split; congruence.
  - inversion H as [|? ? Hs Hrest]; subst.
    destruct (split_pair c s Hs) as (k & v & ->).
    destruct (IH (S i) (Py.setitem d k v) Hrest) as (d' & E & N & Z).
    exists d'. split; [exact E|]. split; [|discriminate].
    intros _. destruct flags as [|s' flags'].
    + rewrite (Z eq_refl). apply setitem_not_nil.
    + apply N. discriminate.
Qed.

(** A flag with no separator, or with more than one, makes [dict] raise a
    [ValueError]. *)
Lemma dict_update_seq_bad c flags : forall i d,
  Exists (fun s => Py.count c s <> 1) flags ->
  exists msg, dict_update_seq i d (map (Py.split c) flags)
              = Raised (ValueError msg).
Proof.
  induction flags as [|s flags IH]; intros i d H; [inversion H|].
  simpl. pose proof (split_length c s) as L.
  destruct (Py.split c s) as [|k [|v [|x l]]] eqn:E; simpl in L.
  - eexists; reflexivity.
  - eexists; reflexivity.
  - inversion H as [? ? Hs|? ? Hrest]; subst.
    + exfalso. apply Hs. lia.
    + apply IH, Hrest.
  - eexists; reflexivity.
Qed.

(** ** States and events *)

Lemma add_events_nil st : add_events st [] = st.
Proof. destruct st; unfold add_events; simpl. now rewrite app_nil_r. Qed.

Lemma add_events_app st evs evs' :
  add_events (add_events st evs) evs' = add_events st (evs ++ evs').
Proof. unfold add_events; simpl. now rewrite app_assoc. Qed.

Lemma events_since_add st evs : events_since st (add_events st evs) = evs.
Proof.
  unfold events_since, add_events; simpl.
  rewrite skipn_app, skipn_all, Nat.sub_diag. reflexivity.
Qed.

Lemma emit_eq ev st : emit ev st = (Returned tt, add_events st [ev]).
Proof. reflexivity. Qed.

Lemma bind_eq {A B} (m : M A) (k : A -> M B) st :
  bind m k st
  = match m st with
    | (Returned a, st') => k a st'
    | (Raised e, st') => (Raised e, st')
    end.
Proof. reflexivity. Qed.

(** ** The log relay *)

Lemma handle_one_record l st :
  (if Py.startswith l "h" then
     click_echo (Click.style (Py.slice_from_1 l) Click.blue)
   else if Py.startswith l "e" then
     click_echo (Click.style (Py.slice_from_1 l) Click.red)
   else if Py.startswith l "o" then
     click_echo (Click.plain (Py.slice_from_1 l))
   else click_echo (Click.plain l)) st
  = (Returned tt,
     add_events st [echo (LogRelay.render (LogRelay.classify l) l)]).
Proof.
  destruct l as [|c l]; [reflexivity|].
  unfold LogRelay.classify. cbn [Py.startswith]. rewrite !andb_true_r.
  destruct (Ascii.eqb_spec c "h") as [->|_]; [reflexivity|].
  destruct (Ascii.eqb_spec c "e") as [->|_]; [reflexivity|].
  destruct (Ascii.eqb_spec c "o") as [->|_]; reflexivity.
Qed.

Lemma handle_stdio_log_eq newlines : forall st,
  _handle_stdio_log newlines st
  = (Returned tt,
     add_events st
       (map (fun l => echo (LogRelay.render (LogRelay.classify l) l))
            newlines)).
Proof.
  unfold _handle_stdio_log.
  induction newlines as [|l ls IH]; intros st.
  - simpl. unfold ret. now rewrite add_events_nil.
  - cbn [for_each map]. unfold bind at 1.
    rewrite handle_one_record, IH, add_events_app. reflexivity.
Qed.

Lemma for_each_logs logs : forall st,
  for_each logs _handle_stdio_log st
  = (Returned tt, add_events st (log_events logs)).
Proof.
  induction logs as [|b bs IH]; intros st.
  - simpl. unfold ret. now rewrite add_events_nil.
  - cbn [for_each]. unfold bind at 1.
    rewrite handle_stdio_log_eq, IH, add_events_app. reflexivity.
Qed.

Lemma log_events_echo logs ev :
  In ev (log_events logs) -> exists t, ev = echo t.
Proof.
  unfold log_events. rewrite in_flat_map. intros (b & _ & H).
  apply in_map_iff in H as (l & <- & _). eauto.
Qed.

(** ** The volume injector *)

Lemma use_local_sources_eq gethomedir i sources st :
  _use_local_sources gethomedir i sources st =
  match source_volumes gethomedir sources with
  | Raised e => (Raised e, st)
  | Returned volumes =>
      match Source_notReally st with
      | None => (Raised AssertionError, with_volumes st i volumes)
      | Some _ => (Returned tt, with_notReally (with_volumes st i volumes))
      end
  end.
Proof.
  unfold _use_local_sources, bind, lift, get.
  destruct (source_volumes gethomedir sources); [|reflexivity].
  cbn. destruct (Source_notReally st); reflexivity.
Qed.

Lemma with_volumes_add_events st i volumes evs :
  with_volumes (add_events st evs) i volumes
  = add_events (with_volumes st i volumes) evs.
Proof. reflexivity. Qed.

Lemma with_notReally_add_events st evs :
  with_notReally (add_events st evs) = add_events (with_notReally st) evs.
Proof. reflexivity. Qed.

Lemma nth_error_replace {A} (l : list A) i x y :
  nth_error l i = Some x ->
  nth_error (firstn i l ++ y :: skipn (S i) l) i = Some y.
Proof.
  intros H.
  assert (L : i < length l) by (apply nth_error_Some; congruence).
  rewrite nth_error_app2; rewrite firstn_length_le by lia; [|lia].
  now rewrite Nat.sub_diag.
Qed.

Lemma nth_error_replace_other {A} (l : list A) i j x y :
  nth_error l i = Some x -> j <> i ->
  nth_error (firstn i l ++ y :: skipn (S i) l) j = nth_error l j.
Proof.
  intros H Hj.
  assert (L : i < length l) by (apply nth_error_Some; congruence).
  destruct (Nat.lt_ge_cases j i) as [Lt|Ge].
  - rewrite nth_error_app1 by (rewrite firstn_length_le; lia).
    rewrite nth_error_firstn.
    destruct (Nat.ltb_spec j i); [reflexivity|lia].
  - rewrite nth_error_app2; rewrite firstn_length_le by lia; [|lia].
    destruct (j - i) as [|k] eqn:E; [lia|]. cbn [nth_error].
    rewrite nth_error_skipn. f_equal. lia.
Qed.

(** The injector appends to the volumes of its builder and leaves the other
    builders alone. *)
Lemma volumes_at_with_volumes st i volumes vs :
  volumes_at st i = Some vs ->
  volumes_at (with_volumes st i volumes) i = Some (vs ++ volumes).
Proof.
  unfold volumes_at, with_volumes, extend_volumes; simpl.
  destruct (nth_error (p_builders (project st)) i) as [b|] eqn:E;
    [|discriminate].
  simpl. intros [= <-]. now rewrite (nth_error_replace _ _ _ _ E).
Qed.

Lemma volumes_at_with_volumes_other st i j volumes :
  j <> i -> volumes_at (with_volumes st i volumes) j = volumes_at st j.
Proof.
  intros Hj. unfold volumes_at, with_volumes, extend_volumes; simpl.
  destruct (nth_error (p_builders (project st)) i) as [b|] eqn:E;
    [|reflexivity].
  simpl. now rewrite (nth_error_replace_other _ _ _ _ _ E Hj).
Qed.

(** ** The build command, step by step *)

Section Steps.

Variable gethomedir : string -> option string.
Variable codes : ResultCodes.
Variable Builder_str : Builder -> string.
Variable master : MasterBehaviour.

Variables (builder_name : string) (repo : option string) (branch : string)
  (commit : option string) (pull_request : option Z)
  (properties sources : list string) (attach_on_failure : bool).

#[local] Abbreviation build :=
  (project_build gethomedir codes Builder_str master builder_name repo
     branch commit pull_request properties sources attach_on_failure).

Ltac start_build :=
  unfold project_build, bind, ret, raise, lift, get, click_echo;
  rewrite emit_eq; cbn [project add_events].

Lemma build_no_builder st :
  Project_builder (project st) builder_name = None ->
  build st
  = (Raised (ClickException (no_builder_message (project st) builder_name)),
     add_events st [observer_start]).
Proof. intros H. start_build. rewrite H. reflexivity. Qed.

Lemma build_bad_sources st i b e :
  Project_builder (project st) builder_name = Some (i, b) ->
  py_dict (map (Py.split ":") sources) = Raised e ->
  build st = (Raised e, add_events st (preamble Builder_str b)).
Proof.
  intros H E. start_build. rewrite H, emit_eq, E, add_events_app.
  reflexivity.
Qed.

Lemma build_bad_properties st i b sd e :
  Project_builder (project st) builder_name = Some (i, b) ->
  py_dict (map (Py.split ":") sources) = Returned sd ->
  py_dict (map (Py.split "=") properties) = Raised e ->
  build st = (Raised e, add_events st (preamble Builder_str b)).
Proof.
  intros H E E'. start_build. rewrite H, emit_eq, E, E', add_events_app.
  reflexivity.
Qed.

Lemma conclude_eq b ss pd st :
  (TestMaster master (the_attach_on codes attach_on_failure) ;;
   result <- run master (b_name b) ss pd
               {| complete := false; results := None |} ;;
   if negb (complete result) then
     raise (ClickException "Build has not completed!")
   else
     match results result with
     | None => raise (KeyError "results")
     | Some state =>
         if Z.eqb state (SUCCESS codes) || Z.eqb state (WARNINGS codes) then
           click_echo (Click.style "Build successful!" Click.green)
         else
           match Py.getitem (Results codes) state with
           | None => raise IndexError
           | Some statestring =>
               raise (ClickException
                 ("Build has failed with state " ++ statestring))
           end
     end) st
  = conclude codes master b ss pd attach_on_failure st.
Proof.
  unfold conclude, TestMaster, run, report, awaited_result, master_events,
    raise, bind, ret.
  destruct master as [errors| |logs|logs result]; try reflexivity.
  - rewrite !emit_eq, !add_events_app. reflexivity.
  - rewrite !emit_eq, for_each_logs, !emit_eq, !add_events_app.
    cbn [complete negb app fst snd]. rewrite <- !app_assoc. reflexivity.
  - rewrite !emit_eq, for_each_logs, !emit_eq, !add_events_app.
    cbn [app]. rewrite <- !app_assoc. cbn [app].
    destruct (complete result); cbn [negb fst snd];
      [|rewrite ?app_nil_r; reflexivity].
    destruct (results result) as [state|]; [|rewrite ?app_nil_r; reflexivity].
    destruct (Z.eqb state (SUCCESS codes) || Z.eqb state (WARNINGS codes)).
    + unfold click_echo. rewrite emit_eq, add_events_app.
      cbn [fst snd app]. rewrite <- ?app_assoc. reflexivity.
    + destruct (Py.getitem (Results codes) state);
        cbn [fst snd]; rewrite ?app_nil_r; reflexivity.
Qed.

Lemma build_steps st i b sd pd :
  Project_builder (project st) builder_name = Some (i, b) ->
  py_dict (map (Py.split ":") sources) = Returned sd ->
  py_dict (map (Py.split "=") properties) = Returned pd ->
  build st
  = match mount_sources gethomedir i b sd (add_events st (preamble Builder_str b)) with
    | (Raised e, st') => (Raised e, st')
    | (Returned _, st') =>
        conclude codes master b
          (the_sourcestamp (project st) repo branch commit pull_request)
          pd attach_on_failure st'
    end.
Proof.
  intros H E E'. unfold project_build.
  rewrite bind_eq, emit_eq. cbv beta iota.
  rewrite bind_eq. unfold get at 1. cbv beta iota zeta.
  cbn [project add_events]. rewrite H.
  rewrite bind_eq. rewrite (bind_eq (click_echo _)).
  unfold click_echo at 1. rewrite emit_eq. unfold ret at 1. cbv beta iota.
  rewrite add_events_app. cbn [app]. fold (preamble Builder_str b).
  rewrite E. rewrite bind_eq. unfold lift at 1. cbv beta iota.
  rewrite E'. rewrite bind_eq. unfold lift at 1. cbv beta iota.
  cbn [fst snd]. rewrite bind_eq.
  change (if dict_truthy sd then _ else _) with (mount_sources gethomedir i b sd).
  destruct (mount_sources gethomedir i b sd (add_events st (preamble Builder_str b)))
    as [[[]|e] st']; [|reflexivity].
  apply conclude_eq.
Qed.

(** Every way the command can go. *)
Lemma build_inv (P : Outcome unit * State -> Prop) st :
  (Project_builder (project st) builder_name = None ->
   P (Raised (ClickException (no_builder_message (project st) builder_name)),
      add_events st [observer_start])) ->
  (forall i b e,
   Project_builder (project st) builder_name = Some (i, b) ->
   py_dict (map (Py.split ":") sources) = Raised e
   \/ (exists sd, py_dict (map (Py.split ":") sources) = Returned sd)
      /\ py_dict (map (Py.split "=") properties) = Raised e ->
   P (Raised e, add_events st (preamble Builder_str b))) ->
  (forall i b sd pd,
   Project_builder (project st) builder_name = Some (i, b) ->
   py_dict (map (Py.split ":") sources) = Returned sd ->
   py_dict (map (Py.split "=") properties) = Returned pd ->
   dict_truthy sd = true -> b_isdocker b = false ->
   P (Raised mounting_error, add_events st (preamble Builder_str b))) ->
  (forall i b sd pd e,
   Project_builder (project st) builder_name = Some (i, b) ->
   py_dict (map (Py.split ":") sources) = Returned sd ->
   py_dict (map (Py.split "=") properties) = Returned pd ->
   dict_truthy sd = true -> b_isdocker b = true ->
   source_volumes gethomedir sd = Raised e ->
   P (Raised e, add_events st (preamble Builder_str b))) ->
  (forall i b sd pd volumes,
   Project_builder (project st) builder_name = Some (i, b) ->
   py_dict (map (Py.split ":") sources) = Returned sd ->
   py_dict (map (Py.split "=") properties) = Returned pd ->
   dict_truthy sd = true -> b_isdocker b = true ->
   source_volumes gethomedir sd = Returned volumes ->
   Source_notReally st = None ->
   P (Raised AssertionError,
      add_events (with_volumes st i volumes) (preamble Builder_str b))) ->
  (forall i b sd pd base,
   Project_builder (project st) builder_name = Some (i, b) ->
   py_dict (map (Py.split ":") sources) = Returned sd ->
   py_dict (map (Py.split "=") properties) = Returned pd ->
   (dict_truthy sd = false /\ base = st)
   \/ (dict_truthy sd = true /\ b_isdocker b = true
       /\ Source_notReally st <> None
       /\ exists volumes,
            source_volumes gethomedir sd = Returned volumes
            /\ base = with_notReally (with_volumes st i volumes)) ->
   P (conclude codes master b
        (the_sourcestamp (project st) repo branch commit pull_request)
        pd attach_on_failure (add_events base (preamble Builder_str b)))) ->
  P (build st).
Proof.
  intros Hnone Hflags Hkind Hhome Hassert Hrun.
  destruct (Project_builder (project st) builder_name) as [[i b]|] eqn:HB;
    [|rewrite (build_no_builder _ HB); auto].
  destruct (py_dict (map (Py.split ":") sources)) as [sd|e] eqn:HS;
    [|rewrite (build_bad_sources _ _ _ _ HB HS); eauto].
  destruct (py_dict (map (Py.split "=") properties)) as [pd|e] eqn:HP;
    [|rewrite (build_bad_properties _ _ _ _ _ HB HS HP); eauto].
  rewrite (build_steps _ _ _ _ _ HB HS HP). unfold mount_sources.
  destruct (dict_truthy sd) eqn:HT; [|unfold ret; eauto].
  destruct (b_isdocker b) eqn:HD; cbn [negb]; [|unfold raise; eauto].
  rewrite use_local_sources_eq.
  destruct (source_volumes gethomedir sd) as [volumes|e] eqn:HV; [|eauto].
  cbn [Source_notReally add_events].
  destruct (Source_notReally st) as [flag|] eqn:HF.
  - rewrite with_volumes_add_events, with_notReally_add_events.
    eapply Hrun; eauto. right. repeat split; eauto. congruence.
  - rewrite with_volumes_add_events. eauto.
Qed.

End Steps.

(** ** Failures before the master exists *)

Lemma append_assoc (a b c : string) :
  ((a ++ b) ++ c = a ++ (b ++ c))%string.
Proof. induction a as [|x a IH]; simpl; [reflexivity|now rewrite IH]. Qed.

Lemma occurs_in_refl s : occurs_in s s.
Proof.
  exists EmptyString, EmptyString. simpl.
  induction s as [|x s IH]; simpl; [reflexivity|now rewrite <- IH].
Qed.

Lemma occurs_in_left needle pre hay :
  occurs_in needle hay -> occurs_in needle (pre ++ hay).
Proof.
  intros (a & b & ->). exists (pre ++ a)%string, b. now rewrite append_assoc.
Qed.

Lemma occurs_in_right needle hay post :
  occurs_in needle hay -> occurs_in needle (hay ++ post).
Proof.
  intros (a & b & ->). exists a, (b ++ post)%string.
  now rewrite !append_assoc.
Qed.

Lemma occurs_in_join sep x l : In x l -> occurs_in x (Py.join sep l).
Proof.
  unfold Py.join. induction l as [|y l IH]; intros H; [inversion H|].
  destruct H as [->|H].
  - destruct l; simpl; [apply occurs_in_refl|].
    apply occurs_in_right, occurs_in_refl.
  - destruct l as [|z l]; [inversion H|].
    change (String.concat sep (y :: z :: l))
      with (y ++ sep ++ String.concat sep (z :: l))%string.
    now apply occurs_in_left, occurs_in_left, IH.
Qed.

Lemma find_builder_none builders name : forall i,
  ~ In name (map b_name builders) -> find_builder builders name i = None.
Proof.
  induction builders as [|b bs IH]; intros i H; simpl; [reflexivity|].
  destruct (String.eqb_spec (b_name b) name) as [E|_].
  - exfalso. apply H. now left.
  - apply IH. intros F. apply H. now right.
Qed.

Lemma find_builder_some builders name : forall i,
  In name (map b_name builders) ->
  exists j b, find_builder builders name i = Some (j, b).
Proof.
  induction builders as [|b bs IH]; intros i H; simpl; [inversion H|].
  destruct (String.eqb_spec (b_name b) name) as [E|N]; [eauto|].
  destruct H as [H|H]; [congruence|]. now apply IH.
Qed.

Lemma preamble_no_master Builder_str b :
  Forall (fun ev => master_event ev = false) (preamble Builder_str b).
Proof. repeat constructor. Qed.

(** C6. When the requested builder name is not among the project's
    builders, the command fails with an error that click reports to the
    operator, a [ClickException], the family the usage errors of the
    module belong to; the exit status is not zero, and the message names
    the requested builder and lists every builder of the project. Nothing
    but the start of the log observer has happened by then: no master was
    created or started, no build was triggered, and the project is
    untouched. *)
Theorem unknown_builder_fails_before_master
    gethomedir codes Builder_str master builder_name repo branch commit
    pull_request properties sources attach_on_failure st :
  ~ In builder_name (map b_name (p_builders (project st))) ->
  exists e message st',
    project_build gethomedir codes Builder_str master builder_name repo
      branch commit pull_request properties sources attach_on_failure st
    = (Raised e, st')
    /\ is_ClickException e = true
    /\ exit_status (Raised e : Outcome unit) <> 0%Z
    /\ message_of e = Some message
    /\ message = no_builder_message (project st) builder_name
    /\ occurs_in builder_name message
    /\ (forall b, In b (p_builders (project st)) ->
        occurs_in (" - " ++ b_name b) message)
    /\ events_since st st' = [observer_start]
    /\ Forall (fun ev => master_event ev = false) (events_since st st')
    /\ project st' = project st
    /\ Source_notReally st' = Source_notReally st.
Proof.
  intros H.
  exists (ClickException (no_builder_message (project st) builder_name)),
    (no_builder_message (project st) builder_name),
    (add_events st [observer_start]).
  rewrite build_no_builder by now apply find_builder_none.
  rewrite events_since_add. repeat split; try reflexivity.
  - discriminate.
  - unfold no_builder_message.
    do 3 apply occurs_in_left. apply occurs_in_right, occurs_in_refl.
  - intros b Hb. unfold no_builder_message.
    do 8 apply occurs_in_left. apply occurs_in_join.
    now apply (in_map (fun b => (" - " ++ b_name b)%string)).
  - repeat constructor.
Qed.

Lemma unknown_builder_fails_before_master_witness :
  exists st',
    project_build Sample.gethomedir buildbot_results Sample.Builder_str
      (Sample.finishes 0) "no-such-builder" None "master" None None [] []
      false Sample.start
    = (Raised (ClickException
         (no_builder_message Sample.the_project "no-such-builder")), st')
    /\ events_since Sample.start st' = [observer_start].
Proof.
  destruct (unknown_builder_fails_before_master Sample.gethomedir
              buildbot_results Sample.Builder_str (Sample.finishes 0)
              "no-such-builder" None "master" None None [] [] false
              Sample.start)
    as (e & message & st' & E & _ & _ & _ & _ & _ & _ & Ev & _).
  - simpl. intros [H|[H|[]]]; discriminate H.
  - exists st'. split; [|exact Ev].
    rewrite E. vm_compute in E. now injection E as <- _.
Defined.

(** The class of that error: it is [ClickException] itself, with exit
    status 1, where the errors for an unknown project and for sources on a
    builder that is not a docker builder are of its subclass [UsageError],
    with exit status 2. *)
Remark unknown_builder_error_class :
  exists st',
    project_build Sample.gethomedir buildbot_results Sample.Builder_str
      (Sample.finishes 0) "no-such-builder" None "master" None None [] []
      false Sample.start
    = (Raised (ClickException
         (no_builder_message Sample.the_project "no-such-builder")), st')
    /\ exit_code
         (ClickException
            (no_builder_message Sample.the_project "no-such-builder"))
       = 1%Z
    /\ exit_code mounting_error = 2%Z.
Proof. eexists. repeat split. Qed.

Lemma dict_update_seq_raises items : forall i d e,
  dict_update_seq i d items = Raised e -> exists msg, e = ValueError msg.
Proof.
  induction items as [|item items IH]; intros i d e H; [discriminate H|].
  simpl in H. destruct item as [|k [|v [|x l]]];
    try (injection H as <-; eexists; reflexivity).
  eapply IH, H.
Qed.

(** C3. When sources are to be mounted (every [--mount-source] and
    [--property] flag being well formed) and the requested builder is not a
    [DockerBuilder], the command raises the [UsageError] that names the
    feature and the kind of builder it needs (exit status 2). By then only
    the log observer was started and the trigger line printed: no master was
    created or started, no build was triggered, the builders (their volume
    lists included) and [Source.notReally] are as they were. *)
Theorem mounting_needs_a_docker_builder
    gethomedir codes Builder_str master builder_name repo branch commit
    pull_request properties sources attach_on_failure st i b :
  Project_builder (project st) builder_name = Some (i, b) ->
  b_isdocker b = false ->
  sources <> [] ->
  Forall (fun s => Py.count ":" s = 1) sources ->
  Forall (fun p => Py.count "=" p = 1) properties ->
  exists st',
    project_build gethomedir codes Builder_str master builder_name repo
      branch commit pull_request properties sources attach_on_failure st
    = (Raised mounting_error, st')
    /\ is_UsageError mounting_error = true
    /\ exit_code mounting_error = 2%Z
    /\ (exists message,
         message_of mounting_error = Some message
         /\ occurs_in "Mounting source directories" message
         /\ occurs_in "docker builders" message)
    /\ events_since st st' = preamble Builder_str b
    /\ Forall (fun ev => master_event ev = false) (events_since st st')
    /\ project st' = project st
    /\ Source_notReally st' = Source_notReally st.
Proof.
  intros HB HD Hne Hs Hp.
  destruct (dict_update_seq_ok ":" sources 0 [] Hs) as (sd & ES & Nsd & _).
  destruct (dict_update_seq_ok "=" properties 0 [] Hp) as (pd & EP & _).
  exists (add_events st (preamble Builder_str b)).
  rewrite (build_steps _ _ _ _ _ _ _ _ _ _ _ _ _ _ _ _ _ HB ES EP).
  unfold mount_sources.
  destruct sd as [|entry sd]; [now destruct (Nsd Hne)|].
  cbn [dict_truthy]. rewrite HD. cbn [negb]. unfold raise.
  rewrite events_since_add. repeat split; try reflexivity.
  - eexists. split; [reflexivity|]. split.
    + exists EmptyString,
        " is a feature only available for docker builders.". reflexivity.
    + exists "Mounting source directories is a feature only available for ",
        ".". reflexivity.
  - apply preamble_no_master.
Qed.

Lemma mounting_needs_a_docker_builder_witness :
  exists st',
    project_build Sample.gethomedir buildbot_results Sample.Builder_str
      (Sample.finishes 0) "test-builder" None "master" None None
      ["cores=4"] ["~/arrow:arrow"] false Sample.start
    = (Raised mounting_error, st')
    /\ project st' = Sample.the_project.
Proof.
  destruct (mounting_needs_a_docker_builder Sample.gethomedir
              buildbot_results Sample.Builder_str (Sample.finishes 0)
              "test-builder" None "master" None None ["cores=4"]
              ["~/arrow:arrow"] false Sample.start 0 Sample.plain_builder)
    as (st' & E & _ & _ & _ & _ & _ & P & _).
  - reflexivity.
  - reflexivity.
  - discriminate.
  - repeat constructor.
  - repeat constructor.
  - exists st'. split; [exact E|exact P].
Defined.

(** C10. A [--property] flag that does not hold exactly one [=], or a
    [--mount-source] flag that does not hold exactly one [:], makes the
    command fail: it raises, so the exit status is not zero, before any
    master is created or build triggered, with the project and
    [Source.notReally] untouched; when the builder exists the exception is
    the [ValueError] of [dict]. The flag is cut at every separator, not at
    the first one only: [split] returns one piece more than there are
    separators. *)
Theorem malformed_flag_fails_before_master
    gethomedir codes Builder_str master builder_name repo branch commit
    pull_request properties sources attach_on_failure st :
  Exists (fun p => Py.count "=" p <> 1) properties
  \/ Exists (fun s => Py.count ":" s <> 1) sources ->
  (exists e st',
     project_build gethomedir codes Builder_str master builder_name repo
       branch commit pull_request properties sources attach_on_failure st
     = (Raised e, st')
     /\ exit_status (Raised e : Outcome unit) <> 0%Z
     /\ Forall (fun ev => master_event ev = false) (events_since st st')
     /\ project st' = project st
     /\ Source_notReally st' = Source_notReally st
     /\ (In builder_name (map b_name (p_builders (project st))) ->
         exists message, e = ValueError message))
  /\ (forall c flag, length (Py.split c flag) = S (Py.count c flag)).
Proof.
  intros Hbad. split; [|intros; apply split_length].
  destruct (Project_builder (project st) builder_name) as [[i b]|] eqn:HB.
  - assert (exists message,
              py_dict (map (Py.split ":") sources)
              = Raised (ValueError message)
              \/ (exists sd, py_dict (map (Py.split ":") sources)
                             = Returned sd)
                 /\ py_dict (map (Py.split "=") properties)
                    = Raised (ValueError message)) as (message & Hflags).
    { destruct (py_dict (map (Py.split ":") sources)) as [sd|e] eqn:ES.
      - destruct Hbad as [Hp|Hs].
        + destruct (dict_update_seq_bad "=" properties 0 [] Hp) as (m & E).
          exists m. right. split; [eauto|exact E].
        + destruct (dict_update_seq_bad ":" sources 0 [] Hs) as (m & E).
          unfold py_dict in ES. congruence.
      - destruct (dict_update_seq_raises _ _ _ _ ES) as (m & ->).
        exists m. now left. }
    exists (ValueError message), (add_events st (preamble Builder_str b)).
    rewrite events_since_add. repeat split; eauto using preamble_no_master.
    + destruct Hflags as [E|[[sd ES] EP]].
      * now apply build_bad_sources with (i := i).
      * now apply build_bad_properties with (i := i) (sd := sd).
    + discriminate.
  - exists (ClickException (no_builder_message (project st) builder_name)),
      (add_events st [observer_start]).
    rewrite events_since_add, build_no_builder by assumption.
    repeat split; try discriminate.
    + repeat constructor.
    + intros Hin. destruct (find_builder_some _ _ 0 Hin) as (j & b & E).
      unfold Project_builder in HB. congruence.
Qed.

Lemma malformed_flag_fails_before_master_witness :
  exists e st',
    project_build Sample.gethomedir buildbot_results Sample.Builder_str
      (Sample.finishes 0) "docker-builder" None "master" None None
      ["flags=-O2 -DX=1"] ["~/arrow:arrow"] false Sample.start
    = (Raised e, st')
    /\ Forall (fun ev => master_event ev = false)
         (events_since Sample.start st').
Proof.
  destruct (malformed_flag_fails_before_master Sample.gethomedir
              buildbot_results Sample.Builder_str (Sample.finishes 0)
              "docker-builder" None "master" None None ["flags=-O2 -DX=1"]
              ["~/arrow:arrow"] false Sample.start)
    as [(e & st' & E & _ & F & _) _].
  - left. constructor. simpl. lia.
  - exists e, st'. split; [exact E|exact F].
Defined.

(** ** What a run that reaches the master looks like *)

Lemma events_since_base st base evs :
  trace base = trace st -> events_since st (add_events base evs) = evs.
Proof.
  intros E. unfold events_since, add_events; simpl. rewrite E.
  rewrite skipn_app, skipn_all, Nat.sub_diag. reflexivity.
Qed.

Lemma not_in_preamble Builder_str b ev :
  master_event ev = true -> ~ In ev (preamble Builder_str b).
Proof. intros M [<-|[<-|[]]]; discriminate M. Qed.

Lemma not_in_log_events logs ev :
  master_event ev = true -> ~ In ev (log_events logs).
Proof. intros M H. apply log_events_echo in H as (t & ->). discriminate M. Qed.

Lemma not_in_report codes result ev :
  master_event ev = true -> ~ In ev (snd (report codes result)).
Proof.
  unfold report. intros M H.
  destruct (complete result); cbn [negb] in H; [|destruct H].
  destruct (results result) as [state|]; [|destruct H].
  destruct (_ || _).
  - destruct H as [<-|[]]. discriminate M.
  - destruct (Py.getitem _ _); destruct H.
Qed.

Section Runs.

Variable gethomedir : string -> option string.
Variable codes : ResultCodes.
Variable Builder_str : Builder -> string.
Variable master : MasterBehaviour.
Variables (builder_name : string) (repo : option string) (branch : string)
  (commit : option string) (pull_request : option Z)
  (properties sources : list string) (attach_on_failure : bool).

#[local] Abbreviation build :=
  (project_build gethomedir codes Builder_str master builder_name repo
     branch commit pull_request properties sources attach_on_failure).

(** A run either stops before the master is created, or goes through
    [conclude] from a state that differs from the start by the mounted
    volumes only. *)
Lemma build_outcome st :
  (exists e,
     fst (build st) = Raised e
     /\ Forall (fun ev => master_event ev = false)
          (events_since st (snd (build st))))
  \/ (exists i b pd base,
        Project_builder (project st) builder_name = Some (i, b)
        /\ trace base = trace st
        /\ (Source_notReally base = Source_notReally st
            \/ Source_notReally base = Some true)
        /\ build st
           = conclude codes master b
               (the_sourcestamp (project st) repo branch commit pull_request)
               pd attach_on_failure
               (add_events base (preamble Builder_str b))).
Proof.
  apply build_inv; intros; cbn [fst snd]; rewrite ?events_since_add;
    try (left; eexists; split;
         [reflexivity|solve [apply preamble_no_master]]).
  - left. eexists. split; [reflexivity|repeat constructor].
  - left. eexists. split; [reflexivity|].
    rewrite events_since_base by reflexivity. apply preamble_no_master.
  - right. exists i, b, pd, base. split; [assumption|].
    destruct H2 as [[_ ->]|(_ & _ & _ & volumes & _ & ->)]; auto.
Qed.

(** The events of a run that went through [conclude]. *)
Lemma conclude_events b ss pd st base :
  trace base = trace st ->
  events_since st
    (snd (conclude codes master b ss pd attach_on_failure
            (add_events base (preamble Builder_str b))))
  = preamble Builder_str b
    ++ match master with
       | config_errors _ => []
       | _ =>
           master_events master (the_attach_on codes attach_on_failure)
             (b_name b) ss pd
           ++ snd (report codes (awaited_result master))
       end.
Proof.
  intros E. unfold conclude.
  destruct master; cbn [snd]; rewrite ?add_events_app;
    rewrite events_since_base by assumption; rewrite ?app_nil_r; reflexivity.
Qed.

(** The build that is triggered is the one of the requested builder, for
    the sourcestamp of lines 504 to 513. *)
Lemma triggered_build st name ss pd :
  In (build_triggered name ss pd) (events_since st (snd (build st))) ->
  ss = the_sourcestamp (project st) repo branch commit pull_request.
Proof.
  destruct (build_outcome st)
    as [(e & _ & F)|(i & b & pd' & base & _ & T & _ & E)]; intros H.
  - rewrite Forall_forall in F. apply F in H. discriminate H.
  - rewrite E, conclude_events in H by assumption.
    apply in_app_or in H as [H|H];
      [now apply not_in_preamble in H|].
    unfold master_events in H.
    destruct master as [errors| |logs|logs result];
      rewrite ?in_app_iff in H; simpl in H;
      repeat match type of H with _ \/ _ => destruct H as [H|H] end;
      try discriminate H; try contradiction;
      try (now apply not_in_log_events in H);
      try (now apply not_in_report in H);
      now injection H as _ <- _.
Qed.

(** Once the reactor has run, the command ends as [report] says for the
    awaited result. *)
Lemma reported_result st :
  In reactor_stopped (events_since st (snd (build st))) ->
  fst (build st) = fst (report codes (awaited_result master))
  /\ exists before,
       events_since st (snd (build st))
       = before ++ reactor_stopped
                   :: snd (report codes (awaited_result master)).
Proof.
  destruct (build_outcome st)
    as [(e & _ & F)|(i & b & pd' & base & _ & T & _ & E)]; intros H.
  - rewrite Forall_forall in F. apply F in H. discriminate H.
  - rewrite E, conclude_events in * by assumption. clear E.
    unfold conclude, master_events in *.
    destruct master as [errors| |logs|logs result].
    + rewrite app_nil_r in H. now apply not_in_preamble in H.
    + split; [reflexivity|].
      exists (preamble Builder_str b
              ++ [master_created (the_attach_on codes attach_on_failure)]).
      now rewrite <- !app_assoc.
    + split; [reflexivity|].
      eexists (preamble Builder_str b ++ _ :: _ :: _ :: log_events logs
               ++ [master_stopped]).
      rewrite <- !app_assoc. cbn [app]. rewrite <- !app_assoc. reflexivity.
    + split; [reflexivity|].
      eexists (preamble Builder_str b ++ _ :: _ :: _ :: log_events logs
               ++ [master_stopped]).
      rewrite <- !app_assoc. cbn [app]. rewrite <- !app_assoc. reflexivity.
Qed.

(** Nothing in the command resets [Source.notReally]. *)
Lemma notReally_stays st :
  Source_notReally st = Some true ->
  Source_notReally (snd (build st)) = Some true.
Proof.
  intros F. apply build_inv; intros; cbn [snd]; try exact F.
  unfold conclude.
  assert (Source_notReally base = Some true) as Fb
    by (destruct H2 as [[_ ->]|(_ & _ & _ & volumes & _ & ->)];
        [exact F|reflexivity]).
  destruct master; exact Fb.
Qed.

End Runs.

Section Verdicts.

Variable gethomedir : string -> option string.
Variable codes : ResultCodes.
Variable Builder_str : Builder -> string.
Variable master : MasterBehaviour.
Variables (builder_name : string) (repo : option string) (branch : string)
  (commit : option string) (pull_request : option Z)
  (properties sources : list string) (attach_on_failure : bool).

(** How the command ends depends on the builder, the flags, the home
    directories, [Source.notReally] and the master only. *)
Lemma build_ends st :
  fst (project_build gethomedir codes Builder_str master builder_name repo
         branch commit pull_request properties sources attach_on_failure st)
  = outcome gethomedir codes master builder_name properties sources st.
Proof.
  unfold outcome. apply build_inv; intros; cbn [fst].
  - now rewrite H.
  - rewrite H. destruct H0 as [->|[[sd ->] ->]]; reflexivity.
  - rewrite H, H0, H1. unfold mount_sources. now rewrite H2, H3.
  - rewrite H, H0, H1. unfold mount_sources. rewrite H2, H3. cbn [negb].
    now rewrite use_local_sources_eq, H4.
  - rewrite H, H0, H1. unfold mount_sources. rewrite H2, H3. cbn [negb].
    now rewrite use_local_sources_eq, H4, H5.
  - rewrite H, H0, H1. unfold mount_sources, conclude.
    destruct H2 as [[-> _]|(-> & -> & F & volumes & V & _)]; cbn [negb].
    + unfold ret. cbn [fst]. now destruct master.
    + rewrite use_local_sources_eq, V.
      destruct (Source_notReally st); [|congruence].
      cbn [fst]. now destruct master.
Qed.

End Verdicts.

(** Finds an event in a list that is written out. *)
Ltac find_event := repeat first [left; reflexivity | right].

(** ** The sourcestamp *)

(** C2. Whenever the command triggers a build for a pull request [pr], the
    branch of the sourcestamp it hands over is [refs/pull/<pr>/merge],
    whatever branch was given with [--branch]. *)
Theorem pull_request_overrides_branch
    gethomedir codes Builder_str master builder_name repo branch commit pr
    properties sources attach_on_failure st name ss pd :
  In (build_triggered name ss pd)
    (events_since st
       (snd (project_build gethomedir codes Builder_str master builder_name
               repo branch commit (Some pr) properties sources
               attach_on_failure st))) ->
  ss_branch ss = ("refs/pull/" ++ Py.str_int pr ++ "/merge")%string.
Proof. intros H. apply triggered_build in H. now subst ss. Qed.

Lemma pull_request_overrides_branch_witness :
  let ss :=
    {| ss_codebase := EmptyString;
       ss_repository := "https://github.com/ursa-labs/ursabot";
       ss_branch := "refs/pull/42/merge";
       ss_revision := None;
       ss_project := "ursabot" |} in
  In (build_triggered "test-builder" ss [("cores", "4")])
    (events_since Sample.start
       (snd (project_build Sample.gethomedir buildbot_results
               Sample.Builder_str (Sample.finishes 0) "test-builder" None
               "feature" None (Some 42%Z) ["cores=4"] [] false
               Sample.start)))
  /\ ss_branch ss = "refs/pull/42/merge".
Proof.
  intros ss.
  assert (In (build_triggered "test-builder" ss [("cores", "4")])
            (events_since Sample.start
               (snd (project_build Sample.gethomedir buildbot_results
                       Sample.Builder_str (Sample.finishes 0) "test-builder"
                       None "feature" None (Some 42%Z) ["cores=4"] [] false
                       Sample.start)))) as H
    by (vm_compute; find_event).
  split; [exact H|].
  exact (pull_request_overrides_branch _ _ _ _ _ _ _ _ _ _ _ _ _ _ _ _ H).
Defined.

(** C7. Without [--repo] and without [--pull-request], the sourcestamp of
    the build the command triggers has the empty codebase, the project's
    repository, the given branch, the given commit as its revision (or none)
    and the project's name. The commit is not looked at: the command ends
    the same way whatever it is. *)
Theorem default_sourcestamp
    gethomedir codes Builder_str master builder_name branch commit
    properties sources attach_on_failure st name ss pd :
  In (build_triggered name ss pd)
    (events_since st
       (snd (project_build gethomedir codes Builder_str master builder_name
               None branch commit None properties sources
               attach_on_failure st))) ->
  ss = {| ss_codebase := EmptyString;
          ss_repository := p_repo (project st);
          ss_branch := branch;
          ss_revision := commit;
          ss_project := p_name (project st) |}
  /\ forall commit',
       fst (project_build gethomedir codes Builder_str master builder_name
              None branch commit' None properties sources
              attach_on_failure st)
       = fst (project_build gethomedir codes Builder_str master builder_name
                None branch commit None properties sources
                attach_on_failure st).
Proof.
  intros H. apply triggered_build in H. split; [exact H|].
  intros commit'. now rewrite !build_ends.
Qed.

Lemma default_sourcestamp_witness :
  let ss :=
    {| ss_codebase := EmptyString;
       ss_repository := "https://github.com/ursa-labs/ursabot";
       ss_branch := "main";
       ss_revision := Some "not a commit id";
       ss_project := "ursabot" |} in
  In (build_triggered "test-builder" ss [])
    (events_since Sample.start
       (snd (project_build Sample.gethomedir buildbot_results
               Sample.Builder_str (Sample.finishes 0) "test-builder" None
               "main" (Some "not a commit id") None [] [] false
               Sample.start)))
  /\ ss = {| ss_codebase := EmptyString;
             ss_repository := p_repo Sample.the_project;
             ss_branch := "main";
             ss_revision := Some "not a commit id";
             ss_project := p_name Sample.the_project |}.
Proof.
  intros ss.
  assert (In (build_triggered "test-builder" ss [])
            (events_since Sample.start
               (snd (project_build Sample.gethomedir buildbot_results
                       Sample.Builder_str (Sample.finishes 0) "test-builder"
                       None "main" (Some "not a commit id") None [] [] false
                       Sample.start)))) as H
    by (vm_compute; find_event).
  split; [exact H|].
  exact (proj1 (default_sourcestamp _ _ _ _ _ _ _ _ _ _ _ _ _ _ H)).
Defined.

(** ** The verdict *)

(** C1. Once the reactor has run: a completed build whose result code is
    [SUCCESS] or [WARNINGS] lets the command return (exit status 0) after
    the success message; one whose code is [FAILURE] or [EXCEPTION] makes it
    raise a [ClickException] (exit status not 0) that carries the name
    [Results] gives the code; and a result that is not complete makes it
    raise the error that says the build has not completed, whatever
    [result['results']] holds, a message no failed build can give. *)
Theorem verdict_follows_the_result
    gethomedir codes Builder_str master builder_name repo branch commit
    pull_request properties sources attach_on_failure st :
  In reactor_stopped
    (events_since st
       (snd (project_build gethomedir codes Builder_str master builder_name
               repo branch commit pull_request properties sources
               attach_on_failure st))) ->
  let run_ :=
    project_build gethomedir codes Builder_str master builder_name repo
      branch commit pull_request properties sources attach_on_failure st in
  let result := awaited_result master in
  (complete result = false ->
   fst run_ = Raised (ClickException "Build has not completed!")
   /\ exit_status (fst run_) <> 0%Z)
  /\ (forall state,
      complete result = true -> results result = Some state ->
      (state = SUCCESS codes \/ state = WARNINGS codes ->
       fst run_ = Returned tt
       /\ exit_status (fst run_) = 0%Z
       /\ exists before,
            events_since st (snd run_)
            = before
              ++ [reactor_stopped;
                  echo (Click.style "Build successful!" Click.green)])
      /\ (state = FAILURE codes \/ state = EXCEPTION codes ->
          state <> SUCCESS codes -> state <> WARNINGS codes ->
          forall statestring,
          Py.getitem (Results codes) state = Some statestring ->
          fst run_
          = Raised (ClickException
                      ("Build has failed with state " ++ statestring))
          /\ exit_status (fst run_) <> 0%Z))
  /\ (forall statestring,
      "Build has not completed!"
      <> ("Build has failed with state " ++ statestring)%string).
Proof.
  intros H run_ result. apply reported_result in H as [O (before & Ev)].
  fold run_ in O, Ev. fold result in O, Ev. unfold report in O, Ev.
  repeat split.
  - rewrite O, H. reflexivity.
  - rewrite O, H. discriminate.
  - rewrite O, H, H0. cbn [negb].
    destruct H1 as [->| ->]; rewrite Z.eqb_refl, ?orb_true_r; reflexivity.
  - rewrite O, H, H0. cbn [negb].
    destruct H1 as [->| ->]; rewrite Z.eqb_refl, ?orb_true_r; reflexivity.
  - exists before. rewrite Ev, H, H0. cbn [negb].
    destruct H1 as [->| ->]; rewrite Z.eqb_refl, ?orb_true_r; reflexivity.
  - rewrite O, H, H0. cbn [negb].
    apply Z.eqb_neq in H2, H3. now rewrite H2, H3, H4.
  - rewrite O, H, H0. cbn [negb].
    apply Z.eqb_neq in H2, H3. rewrite H2, H3, H4. discriminate.
  - intros statestring E. simpl in E. discriminate E.
Qed.

Lemma verdict_follows_the_result_witness :
  fst (project_build Sample.gethomedir buildbot_results Sample.Builder_str
         (Sample.finishes 2) "test-builder" None "master" None None [] []
         false Sample.start)
  = Raised (ClickException "Build has failed with state failure").
Proof.
  destruct (verdict_follows_the_result Sample.gethomedir buildbot_results
              Sample.Builder_str (Sample.finishes 2) "test-builder" None
              "master" None None [] [] false Sample.start) as (_ & V & _).
  - vm_compute. find_event.
  - destruct (V 2%Z eq_refl eq_refl) as [_ F].
    refine (proj1 (F (or_introl eq_refl) _ _ "failure" eq_refl));
      discriminate.
Defined.

(** ** The log relay *)

(** C8 (as amended). [_handle_stdio_log] prints one line per record, in
    order, and does nothing else. The category of a record is read off its
    first character alone: [h] header, [o] stdout, [e] stderr, anything
    else, or no character at all, unknown. A header is printed in blue and
    a stderr record in red, both without the prefix; a stdout record is
    printed unstyled without the prefix and an unknown record unstyled as
    it is. So there are three visual treatments for the four categories:
    blue, red and plain differ on every text, while stdout and unknown
    share the plain one. How the command ends does not depend on the log
    records of the build. *)
Theorem log_relay_renders_by_prefix :
  (forall newlines st,
     _handle_stdio_log newlines st
     = (Returned tt,
        add_events st
          (map (fun l => echo (LogRelay.render (LogRelay.classify l) l))
               newlines)))
  /\ (forall l l',
      Py.slice_to_1 l = Py.slice_to_1 l' ->
      LogRelay.classify l = LogRelay.classify l')
  /\ (forall text,
      LogRelay.classify (String "h" text) = LogRelay.Header
      /\ LogRelay.classify (String "o" text) = LogRelay.Stdout
      /\ LogRelay.classify (String "e" text) = LogRelay.Stderr)
  /\ LogRelay.classify EmptyString = LogRelay.Unknown
  /\ (forall c text,
      c <> "h"%char -> c <> "o"%char -> c <> "e"%char ->
      LogRelay.classify (String c text) = LogRelay.Unknown)
  /\ (forall text st,
      _handle_stdio_log [String "h" text] st
      = (Returned tt, add_events st [echo (Click.style text Click.blue)])
      /\ _handle_stdio_log [String "e" text] st
         = (Returned tt, add_events st [echo (Click.style text Click.red)])
      /\ _handle_stdio_log [String "o" text] st
         = (Returned tt, add_events st [echo (Click.plain text)]))
  /\ (forall record st,
      LogRelay.classify record = LogRelay.Unknown ->
      _handle_stdio_log [record] st
      = (Returned tt, add_events st [echo (Click.plain record)])
      /\ _handle_stdio_log [String "o" record] st
         = _handle_stdio_log [record] st)
  /\ (forall text,
      NoDup
        [Click.style text Click.blue; Click.style text Click.red;
         Click.plain text])
  /\ (forall gethomedir codes Builder_str builder_name repo branch commit
        pull_request properties sources attach_on_failure st logs logs'
        result,
      fst (project_build gethomedir codes Builder_str
             (build_returns logs result) builder_name repo branch commit
             pull_request properties sources attach_on_failure st)
      = fst (project_build gethomedir codes Builder_str
               (build_returns logs' result) builder_name repo branch commit
               pull_request properties sources attach_on_failure st)).
Proof.
  split; [exact handle_stdio_log_eq|].
  split.
  { intros [|c l] [|c' l'] E; try discriminate E; [reflexivity|].
    injection E as ->. reflexivity. }
  split; [intros text; repeat split|].
  split; [reflexivity|].
  split.
  { intros c text Hh Ho He. unfold LogRelay.classify.
    destruct (Ascii.eqb_spec c "h"); [contradiction|].
    destruct (Ascii.eqb_spec c "o"); [contradiction|].
    destruct (Ascii.eqb_spec c "e"); [contradiction|reflexivity]. }
  split; [intros text st; rewrite !handle_stdio_log_eq; repeat split|].
  split.
  { intros record st U. rewrite !handle_stdio_log_eq. cbn [map].
    rewrite U. split; reflexivity. }
  split.
  { intros text. repeat constructor; simpl; intros H;
      repeat match type of H with _ \/ _ => destruct H as [H|H] end;
      try discriminate H; contradiction. }
  intros. rewrite !build_ends. reflexivity.
Qed.

(** C8 as the specification states it fails: the categories do not each
    have a treatment of their own. A stdout record and an unknown record
    are both printed unstyled, and here they give the very same line. *)
Lemma stdout_and_unknown_render_alike :
  LogRelay.classify "odone" = LogRelay.Stdout
  /\ LogRelay.classify "done" = LogRelay.Unknown
  /\ _handle_stdio_log ["odone"] Sample.start
     = (Returned tt,
        add_events Sample.start [echo (Click.plain "done")])
  /\ _handle_stdio_log ["done"] Sample.start
     = (Returned tt,
        add_events Sample.start [echo (Click.plain "done")]).
Proof. repeat split. Qed.

(** ** The volume injector *)

(** A path is absolute exactly when the string it was made from starts with
    a slash. *)
Lemma is_absolute_of_str s :
  Pathlib.is_absolute (Pathlib.of_str s) = Py.startswith s "/".
Proof.
  unfold Pathlib.is_absolute, Pathlib.of_str, Pathlib.parse_parts.
  cbn [rev app Pathlib.parse_reversed].
  destruct s as [|c s]; [reflexivity|].
  cbn [Py.truthy negb]. unfold Pathlib.splitroot.
  cbn [Py.startswith]. rewrite andb_true_r.
  destruct (Ascii.eqb c "/"); [|reflexivity].
  destruct (Nat.eqb _ 2); reflexivity.
Qed.

(** [expanduser] leaves a path alone unless it is relative and its first
    component starts with a tilde. *)
Lemma expanduser_no_tilde gethomedir p :
  Pathlib.is_absolute p = true
  \/ Py.slice_to_1 (hd EmptyString (Pathlib._parts p)) <> "~" ->
  Pathlib.expanduser gethomedir p = Returned p.
Proof.
  unfold Pathlib.expanduser, Pathlib.is_absolute.
  destruct (Pathlib._parts p) as [|first others]; [reflexivity|].
  intros [A|T].
  - now rewrite A.
  - cbn [hd] in T.
    destruct (String.eqb_spec (Py.slice_to_1 first) "~"); [contradiction|].
    now rewrite andb_false_r.
Qed.

(** The local list [volumes] has one entry per item of [sources], in the
    order of the items. *)
Lemma source_volumes_nth gethomedir sources : forall volumes,
  source_volumes gethomedir sources = Returned volumes ->
  length volumes = length sources
  /\ forall k src dst,
       nth_error sources k = Some (src, dst) ->
       exists p,
         Pathlib.expanduser gethomedir (Pathlib.of_str src) = Returned p
         /\ nth_error volumes k
            = Some (Interpolate
                      (Pathlib.str p
                       ++ ":%(prop:docker_workdir)s/%(prop:builddir)s/"
                       ++ dst ++ ":rw")).
Proof.
  induction sources as [|[src dst] sources IH]; intros volumes H.
  - injection H as <-. split; [reflexivity|]. intros [|k]; discriminate.
  - cbn [source_volumes] in H.
    destruct (Pathlib.expanduser gethomedir (Pathlib.of_str src))
      as [p|e] eqn:E; [|discriminate H].
    destruct (source_volumes gethomedir sources) as [vs|e] eqn:V;
      [|discriminate H].
    injection H as <-. destruct (IH vs eq_refl) as [L N].
    split; [simpl; now rewrite L|].
    intros [|k] src' dst' Hk; cbn [nth_error] in *.
    + injection Hk as <- <-. eauto.
    + now apply N.
Qed.

(** The loop does not fail when every home directory is found. *)
Lemma source_volumes_total gethomedir sources :
  (forall src dst, In (src, dst) sources ->
   exists p, Pathlib.expanduser gethomedir (Pathlib.of_str src) = Returned p)
  -> exists volumes, source_volumes gethomedir sources = Returned volumes.
Proof.
  induction sources as [|[src dst] sources IH]; intros H.
  - now exists [].
  - destruct (H src dst (or_introl eq_refl)) as [p E].
    destruct IH as [vs V]; [intros s d I; apply (H s d); now right|].
    cbn [source_volumes]. rewrite E, V. eauto.
Qed.

(** C5. Once [_use_local_sources] has returned, [Source.notReally] is
    [True]. The attribute belongs to the process, not to the builder the
    sources were mounted on or to one build: whatever [project build]
    command runs next in the same process, for whatever builder, with or
    without mounted sources, the attribute is still [True] when it ends. *)
Theorem checkout_bypass_is_process_wide gethomedir builder sources st st' :
  _use_local_sources gethomedir builder sources st = (Returned tt, st') ->
  Source_notReally st' = Some true
  /\ forall gethomedir' codes Builder_str master builder_name repo branch
       commit pull_request properties sources' attach_on_failure,
     Source_notReally
       (snd (project_build gethomedir' codes Builder_str master builder_name
               repo branch commit pull_request properties sources'
               attach_on_failure st'))
     = Some true.
Proof.
  rewrite use_local_sources_eq. intros H.
  assert (Source_notReally st' = Some true) as F.
  { destruct (source_volumes gethomedir sources); [|discriminate H].
    destruct (Source_notReally st); [|discriminate H].
    now injection H as <-. }
  split; [exact F|]. intros. now apply notReally_stays.
Qed.

Lemma checkout_bypass_is_process_wide_witness :
  let st' :=
    snd (_use_local_sources Sample.gethomedir 1 [("~/arrow", "arrow")]
           Sample.start) in
  Source_notReally Sample.start = Some false
  /\ Source_notReally st' = Some true
  /\ Source_notReally
       (snd (project_build Sample.gethomedir buildbot_results
               Sample.Builder_str (Sample.finishes 0) "test-builder" None
               "master" None None [] [] false st'))
     = Some true.
Proof.
  intros st'.
  destruct (checkout_bypass_is_process_wide Sample.gethomedir 1
              [("~/arrow", "arrow")] Sample.start st' eq_refl) as [F N].
  split; [reflexivity|]. split; [exact F|]. apply N.
Defined.

(** C4 (as amended). When every home directory that is asked for is found
    and [Source] has the attribute, [_use_local_sources] returns, and the
    builder's volume list is the old list followed by one volume per item of
    [sources], in the order of the items; the other builders keep their
    volumes. The host path of each volume is [str(Path(src).expanduser())]:
    a path that is absolute, or whose first component does not start with a
    tilde, is used as [Path(src)] gives it, so a relative path stays
    relative. *)
Theorem sources_are_mounted_in_order gethomedir builder sources st vs :
  volumes_at st builder = Some vs ->
  Source_notReally st <> None ->
  (forall src dst, In (src, dst) sources ->
   exists p,
     Pathlib.expanduser gethomedir (Pathlib.of_str src) = Returned p) ->
  exists st' volumes,
    _use_local_sources gethomedir builder sources st = (Returned tt, st')
    /\ volumes_at st' builder = Some (vs ++ volumes)
    /\ length volumes = length sources
    /\ (forall k src dst,
        nth_error sources k = Some (src, dst) ->
        exists p,
          Pathlib.expanduser gethomedir (Pathlib.of_str src) = Returned p
          /\ nth_error volumes k
             = Some (Interpolate
                       (Pathlib.str p
                        ++ ":%(prop:docker_workdir)s/%(prop:builddir)s/"
                        ++ dst ++ ":rw")))
    /\ (forall other, other <> builder ->
        volumes_at st' other = volumes_at st other)
    /\ (forall src,
        Pathlib.is_absolute (Pathlib.of_str src) = true
        \/ Py.slice_to_1 (hd EmptyString (Pathlib._parts (Pathlib.of_str src)))
           <> "~" ->
        Pathlib.expanduser gethomedir (Pathlib.of_str src)
        = Returned (Pathlib.of_str src)
        /\ Pathlib.is_absolute (Pathlib.of_str src) = Py.startswith src "/").
Proof.
  intros Hvs Hflag Hhome.
  destruct (source_volumes_total gethomedir sources Hhome) as [volumes V].
  exists (with_notReally (with_volumes st builder volumes)), volumes.
  destruct (source_volumes_nth _ _ _ V) as [L N].
  rewrite use_local_sources_eq, V.
  destruct (Source_notReally st) as [flag|]; [|contradiction].
  repeat split; auto.
  - now apply (volumes_at_with_volumes st builder volumes vs).
  - intros other Ho.
    now apply (volumes_at_with_volumes_other st builder other volumes).
  - now apply expanduser_no_tilde.
  - apply is_absolute_of_str.
Qed.

Lemma sources_are_mounted_in_order_witness :
  exists st',
    _use_local_sources Sample.gethomedir 1
      [("~/arrow", "arrow"); ("/opt/parquet", "parquet")] Sample.start
    = (Returned tt, st')
    /\ volumes_at st' 1
       = Some
           [Interpolate "/var/cache:/cache:rw";
            Interpolate
              "/home/ursabot/arrow:%(prop:docker_workdir)s/%(prop:builddir)s/arrow:rw";
            Interpolate
              "/opt/parquet:%(prop:docker_workdir)s/%(prop:builddir)s/parquet:rw"].
Proof.
  destruct (sources_are_mounted_in_order Sample.gethomedir 1
              [("~/arrow", "arrow"); ("/opt/parquet", "parquet")]
              Sample.start [Interpolate "/var/cache:/cache:rw"])
    as (st' & volumes & E & _).
  - reflexivity.
  - discriminate.
  - intros src dst [H|[H|[]]]; injection H as <- <-; eexists; reflexivity.
  - exists st'. split; [exact E|].
    vm_compute in E. injection E as <-. reflexivity.
Defined.

(** C4 as the specification states it fails: a relative host path is not
    made absolute; it goes into the volume as it was given. *)
Lemma relative_host_path_stays_relative :
  exists st' p,
    _use_local_sources Sample.gethomedir 1 [("src/arrow", "arrow")]
      Sample.start
    = (Returned tt, st')
    /\ Pathlib.expanduser Sample.gethomedir (Pathlib.of_str "src/arrow")
       = Returned p
    /\ Pathlib.is_absolute p = false
    /\ volumes_at st' 1
       = Some
           [Interpolate "/var/cache:/cache:rw";
            Interpolate
              "src/arrow:%(prop:docker_workdir)s/%(prop:builddir)s/arrow:rw"].
Proof. do 2 eexists. repeat split; reflexivity. Qed.

(** ** The image filter *)

Module FilterFacts.
Import FilterEngine.

(** Induction on a condition, with the conditions nested in a filter. *)
Fixpoint Condition_nested_ind (P : Condition -> Prop)
    (HM : forall pattern, P (Matching pattern))
    (HF : forall conditions,
          Forall (fun kc => P (snd kc)) conditions -> P (Filter conditions))
    (c : Condition) : P c :=
  match c with
  | Matching pattern => HM pattern
  | Filter conditions =>
      HF conditions
        ((fix nested (l : list (string * Condition))
            : Forall (fun kc => P (snd kc)) l :=
            match l with
            | [] => Forall_nil _
            | kc :: l' =>
                Forall_cons kc (Condition_nested_ind P HM HF (snd kc))
                  (nested l')
            end) conditions)
  end.

(** A filter matches when each of its conditions finds its attribute and
    matches it. *)
Lemma matches_filter_iff conditions a :
  matches (Filter conditions) a = true
  <-> forall key c, In (key, c) conditions ->
      exists v, getattr a key = Some v /\ matches c v = true.
Proof.
  cbn [matches]. induction conditions as [|[k c'] cs IH].
  - split; [intros _ key c []|reflexivity].
  - rewrite andb_true_iff, IH. split.
    + intros [Hhead Htail] key c [E|I]; [|now apply Htail].
      injection E as <- <-.
      destruct (getattr a k) as [v|]; [eauto|discriminate Hhead].
    + intros H. split; [|intros key c I; apply H; now right].
      destruct (H k c' (or_introl eq_refl)) as (v & -> & M). exact M.
Qed.

Lemma matches_Matches c : forall a, matches c a = true <-> Matches c a.
Proof.
  induction c as [pattern|conditions IH] using Condition_nested_ind;
    intros a.
  - split; [now constructor|now inversion 1].
  - rewrite matches_filter_iff. rewrite Forall_forall in IH. split.
    + intros H. constructor. intros key c I.
      destruct (H key c I) as (v & G & M). exists v. split; [exact G|].
      now apply (IH (key, c) I v).
    + intros H key c I. inversion H as [|? ? H']; subst.
      destruct (H' key c I) as (v & G & M). exists v. split; [exact G|].
      now apply (IH (key, c) I v).
Qed.

End FilterFacts.

(** C9. A descriptor matches a predicate exactly when every attribute the
    predicate constrains matches the descriptor's attribute of that name,
    nested groups being matched in the same way; an attribute the predicate
    does not name plays no part, and the predicate that constrains nothing
    matches every descriptor. For the filter the [docker] group builds, an
    image matches exactly when its name, tag and variant and the arch,
    system and distro of its platform match the options. *)
Theorem filter_matches_every_constraint :
  (forall predicate descriptor,
     FilterEngine.matches predicate descriptor = true
     <-> FilterEngine.Matches predicate descriptor)
  /\ (forall conditions descriptor,
      FilterEngine.matches (FilterEngine.Filter conditions) descriptor = true
      <-> forall key c, In (key, c) conditions ->
          exists v,
            FilterEngine.getattr descriptor key = Some v
            /\ FilterEngine.matches c v = true)
  /\ (forall descriptor,
      FilterEngine.matches (FilterEngine.Filter []) descriptor = true)
  /\ (forall name tag variant no_variant arch system distro image,
      FilterEngine.matches
        (FilterEngine.image_filter name tag variant no_variant arch system
           distro) image = true
      <-> exists n t v platform a s d,
            FilterEngine.getattr image "name" = Some n
            /\ FilterEngine.getattr image "tag" = Some t
            /\ FilterEngine.getattr image "variant" = Some v
            /\ FilterEngine.getattr image "platform" = Some platform
            /\ FilterEngine.getattr platform "arch" = Some a
            /\ FilterEngine.getattr platform "system" = Some s
            /\ FilterEngine.getattr platform "distro" = Some d
            /\ FilterEngine.matching (Some name) n = true
            /\ FilterEngine.matching (Some tag) t = true
            /\ FilterEngine.matching
                 (if no_variant then None else Some variant) v = true
            /\ FilterEngine.matching (Some arch) a = true
            /\ FilterEngine.matching (Some system) s = true
            /\ FilterEngine.matching (Some distro) d = true).
Proof.
  split; [intros; apply FilterFacts.matches_Matches|].
  split; [intros; apply FilterFacts.matches_filter_iff|].
  split; [reflexivity|].
  intros. unfold FilterEngine.image_filter. cbn [FilterEngine.matches].
  split.
  - intros H.
    destruct (FilterEngine.getattr image "name") as [n|];
      [|discriminate H].
    destruct (FilterEngine.getattr image "tag") as [t|];
      [|now rewrite andb_false_r in H].
    destruct (FilterEngine.getattr image "variant") as [v|];
      [|now rewrite !andb_false_r in H].
    destruct (FilterEngine.getattr image "platform") as [platform|];
      [|now rewrite !andb_false_r in H].
    destruct (FilterEngine.getattr platform "arch") as [a|] eqn:Ea;
      [|now rewrite !andb_false_r in H].
    destruct (FilterEngine.getattr platform "system") as [s|] eqn:Es;
      [|now rewrite !andb_false_r in H].
    destruct (FilterEngine.getattr platform "distro") as [d|] eqn:Ed;
      [|now rewrite !andb_false_r in H].
    rewrite !andb_true_iff in H.
    exists n, t, v, platform, a, s, d. intuition.
  - intros (n & t & v & platform & a & s & d & -> & -> & -> & -> & H).
    destruct H as (-> & -> & -> & -> & -> & -> & -> & -> & ->).
    reflexivity.
Qed.

(** ** Examples *)

Example split_at_every_separator :
  Py.split "=" "flags=-O2 -DX=1" = ["flags"; "-O2 -DX"; "1"]
  /\ Py.split ":" "no separator" = ["no separator"]
  /\ Py.split ":" EmptyString = [EmptyString].
Proof. repeat split. Qed.

Example later_flag_wins_in_place :
  py_dict (map (Py.split "=") ["a=1"; "b=2"; "a=3"])
  = Returned [("a", "3"); ("b", "2")].
Proof. reflexivity. Qed.

Example str_int_examples :
  Py.str_int 42 = "42" /\ Py.str_int 0 = "0" /\ Py.str_int (-7) = "-7".
Proof. repeat split. Qed.

Example results_by_code :
  Py.getitem (Results buildbot_results) (FAILURE buildbot_results)
  = Some "failure"
  /\ Py.getitem (Results buildbot_results) (EXCEPTION buildbot_results)
     = Some "exception"
  /\ Py.getitem (Results buildbot_results) (-1) = Some "cancelled"
  /\ Py.getitem (Results buildbot_results) 7 = None.
Proof. repeat split. Qed.

Example expanduser_examples :
  let host s :=
    match Pathlib.expanduser Sample.gethomedir (Pathlib.of_str s) with
    | Returned p => Some (Pathlib.str p)
    | Raised _ => None
    end in
  host "~/arrow//cpp/" = Some "/home/ursabot/arrow/cpp"
  /\ host "/opt/./parquet" = Some "/opt/parquet"
  /\ host "src/arrow" = Some "src/arrow"
  /\ host EmptyString = Some "."
  /\ host "~nobody/arrow" = None.
Proof. repeat split. Qed.

Example glob_examples :
  FilterEngine.glob "*" EmptyString = true
  /\ FilterEngine.glob "ubuntu-*" "ubuntu-18.04" = true
  /\ FilterEngine.glob "a?c" "abc" = true
  /\ FilterEngine.glob "a?c" "ac" = false
  /\ FilterEngine.glob "amd64" "arm64v8" = false.
Proof. repeat split. Qed.

(** The first end-to-end scenario of the specification: the builder exists,
    there are no mounts and no pull request, the build succeeds. *)
Example successful_build :
  project_build Sample.gethomedir buildbot_results Sample.Builder_str
    (Sample.finishes 0) "test-builder" None "main" None None [] [] false
    Sample.start
  = (Returned tt,
     add_events Sample.start
       [observer_start;
        echo (Click.plain "Triggering builder: <Builder 'test-builder'>");
        master_created [];
        master_started;
        build_triggered "test-builder"
          {| ss_codebase := EmptyString;
             ss_repository := "https://github.com/ursa-labs/ursabot";
             ss_branch := "main";
             ss_revision := None;
             ss_project := "ursabot" |} [];
        echo (Click.style "starting" Click.blue);
        echo (Click.plain "compiled");
        echo (Click.style "warning: unused" Click.red);
        echo (Click.plain "done");
        master_stopped;
        reactor_stopped;
        echo (Click.style "Build successful!" Click.green)]).
Proof. reflexivity. Qed.

(** A build with mounted sources on the docker builder: the volumes are
    added, the checkouts are faked from then on, and the master reports a
    failure. *)
Example failed_build_with_sources :
  let run_ :=
    project_build Sample.gethomedir buildbot_results Sample.Builder_str
      (Sample.finishes 2) "docker-builder" (Some "https://example.org/fork")
      "feature" (Some "0123abc") (Some 7%Z) ["cores=4"] ["~/arrow:arrow"]
      true Sample.start in
  fst run_ = Raised (ClickException "Build has failed with state failure")
  /\ exit_status (fst run_) = 1%Z
  /\ Source_notReally (snd run_) = Some true
  /\ volumes_at (snd run_) 1
     = Some
         [Interpolate "/var/cache:/cache:rw";
          Interpolate
            "/home/ursabot/arrow:%(prop:docker_workdir)s/%(prop:builddir)s/arrow:rw"]
  /\ In (build_triggered "docker-builder"
           {| ss_codebase := EmptyString;
              ss_repository := "https://example.org/fork";
              ss_branch := "refs/pull/7/merge";
              ss_revision := Some "0123abc";
              ss_project := "ursabot" |} [("cores", "4")])
       (trace (snd run_)).
Proof. repeat split. vm_compute. find_event. Qed.

(** * Further properties of the commands *)

(** ** What the build command hands to the master *)

Lemma find_builder_found builders name : forall i j b,
  find_builder builders name i = Some (j, b) ->
  b_name b = name /\ i <= j /\ nth_error builders (j - i) = Some b.
Proof.
  induction builders as [|b0 bs IH]; intros i j b H; [discriminate H|].
  simpl in H. destruct (String.eqb_spec (b_name b0) name) as [E|_].
  - injection H as <- <-. rewrite Nat.sub_diag. auto.
  - apply IH in H as (N & L & Hn). split; [exact N|]. split; [lia|].
    replace (j - i) with (S (j - S i)) by lia. exact Hn.
Qed.

Lemma Project_builder_found p name i b :
  Project_builder p name = Some (i, b) ->
  b_name b = name /\ nth_error (p_builders p) i = Some b.
Proof.
  intros H. apply find_builder_found in H as (N & _ & Hn).
  now rewrite Nat.sub_0_r in Hn.
Qed.





Section Triggers.

Variable gethomedir : string -> option string.
Variable codes : ResultCodes.
Variable Builder_str : Builder -> string.
Variable master : MasterBehaviour.
Variables (builder_name : string) (repo : option string) (branch : string)
  (commit : option string) (pull_request : option Z)
  (properties sources : list string) (attach_on_failure : bool).

#[local] Abbreviation build :=
  (project_build gethomedir codes Builder_str master builder_name repo
     branch commit pull_request properties sources attach_on_failure).

(** A run either stops before the master is created, or goes through
    [conclude] for the requested builder and the converted properties. *)
Lemma build_reaches st :
  Forall (fun ev => master_event ev = false)
    (events_since st (snd (build st)))
  \/ (exists i b pd base,
        Project_builder (project st) builder_name = Some (i, b)
        /\ py_dict (map (Py.split "=") properties) = Returned pd
        /\ trace base = trace st
        /\ build st
           = conclude codes master b
               (the_sourcestamp (project st) repo branch commit pull_request)
               pd attach_on_failure
               (add_events base (preamble Builder_str b))).
Proof.
  apply build_inv; intros; cbn [snd]; rewrite ?events_since_add;
    try (left; solve [apply preamble_no_master]).
  - left. repeat constructor.
  - left. rewrite events_since_base by reflexivity.
    apply preamble_no_master.
  - right. exists i, b, pd, base. repeat split; try assumption.
    now destruct H2 as [[_ ->]|(_ & _ & _ & volumes & _ & ->)].
Qed.

(** The events of a run, by what the master does. *)
Lemma build_events st :
  Forall (fun ev => master_event ev = false)
    (events_since st (snd (build st)))
  \/ (exists i b pd,
        Project_builder (project st) builder_name = Some (i, b)
        /\ py_dict (map (Py.split "=") properties) = Returned pd
        /\ events_since st (snd (build st))
           = preamble Builder_str b
             ++ match master with
                | config_errors _ => []
                | _ =>
                    master_events master
                      (the_attach_on codes attach_on_failure) (b_name b)
                      (the_sourcestamp (project st) repo branch commit
                         pull_request) pd
                    ++ snd (report codes (awaited_result master))
                end).
Proof.
  destruct (build_reaches st) as [F|(i & b & pd & base & HB & HP & T & E)];
    [now left|right].
  exists i, b, pd. repeat split; try assumption.
  rewrite E. now apply conclude_events.
Qed.

Lemma triggered_build_full st name ss pd :
  In (build_triggered name ss pd) (events_since st (snd (build st))) ->
  name = builder_name
  /\ ss = the_sourcestamp (project st) repo branch commit pull_request
  /\ py_dict (map (Py.split "=") properties) = Returned pd.
Proof.
  destruct (build_events st) as [F|(i & b & pd' & HB & HP & ->)]; intros H.
  - rewrite Forall_forall in F. apply F in H. discriminate H.
  - apply Project_builder_found in HB as [N _].
    apply in_app_or in H as [H|H];
      [now apply not_in_preamble in H|].
    unfold master_events in H.
    destruct master as [errors| |logs|logs result];
      rewrite ?in_app_iff in H; simpl in H;
      repeat match type of H with _ \/ _ => destruct H as [H|H] end;
      try discriminate H; try contradiction;
      try (now apply not_in_log_events in H);
      try (now apply not_in_report in H);
      injection H as <- <- <-; auto.
Qed.

End Triggers.

(** The value the last of the [flags] that name [key] gives it, the flags
    being of the form [key<c>value]. *)
Fixpoint last_value (c : ascii) (flags : list string) (key : string)
  : option string :=
  match flags with
  | [] => None
  | flag :: flags' =>
      match last_value c flags' key with
      | Some v => Some v
      | None =>
          match Py.split c flag with
          | [k; v] => if String.eqb k key then Some v else None
          | _ => None
          end
      end
  end.

Lemma dict_get_setitem d k v key :
  dict_get (Py.setitem d k v) key
  = if String.eqb k key then Some v else dict_get d key.
Proof.
  induction d as [|[k' v'] d IH]; simpl; [reflexivity|].
  destruct (String.eqb_spec k' k) as [->|N]; simpl.
  - now destruct (String.eqb k key).
  - rewrite IH. destruct (String.eqb_spec k' key) as [->|_]; [|reflexivity].
    destruct (String.eqb_spec k key); [congruence|reflexivity].
Qed.

Lemma setitem_keys d k v key :
  In key (map fst (Py.setitem d k v)) <-> key = k \/ In key (map fst d).
Proof.
  induction d as [|[k' v'] d IH]; simpl; [intuition|].
  destruct (String.eqb_spec k' k) as [->|N]; simpl; [intuition|].
  rewrite IH. intuition.
Qed.

Lemma setitem_NoDup d k v :
  NoDup (map fst d) -> NoDup (map fst (Py.setitem d k v)).
Proof.
  induction d as [|[k' v'] d IH]; simpl; intros H.
  - repeat constructor. intros [].
  - inversion H as [|? ? Hn Hd]; subst.
    destruct (String.eqb_spec k' k) as [->|N]; simpl.
    + now constructor.
    + constructor; [|now apply IH].
      rewrite setitem_keys. intros [E|I]; [congruence|contradiction].
Qed.

(** [dict] keeps the keys apart and gives each the value of its last
    flag. *)
Lemma dict_update_seq_last c flags : forall i d d',
  dict_update_seq i d (map (Py.split c) flags) = Returned d' ->
  (NoDup (map fst d) -> NoDup (map fst d'))
  /\ forall key,
       dict_get d' key
       = match last_value c flags key with
         | Some v => Some v
         | None => dict_get d key
         end.
Proof.
  induction flags as [|flag flags IH]; intros i d d' H.
  - injection H as <-. split; [auto|reflexivity].
  - cbn [map dict_update_seq] in H. cbn [last_value].
    destruct (Py.split c flag) as [|k [|v [|x l]]]; try discriminate H.
    apply IH in H as [N G]. split; [auto using setitem_NoDup|].
    intros key. rewrite G, dict_get_setitem.
    destruct (last_value c flags key); [reflexivity|].
    now destruct (String.eqb k key).
Qed.

(** The position and the length that the [ValueError] of [dict] names are
    those of the first flag that does not split in two. *)
Lemma dict_update_seq_first_bad c good bad rest : forall i d,
  Forall (fun s => Py.count c s = 1) good ->
  Py.count c bad <> 1 ->
  dict_update_seq i d (map (Py.split c) (good ++ bad :: rest))
  = Raised (ValueError
      ("dictionary update sequence element #"
       ++ Py.str_int (Z.of_nat (i + length good)) ++ " has length "
       ++ Py.str_int (Z.of_nat (S (Py.count c bad))) ++ "; 2 is required")).
Proof.
  induction good as [|s good IH]; intros i d Hg Hb.
  - cbn [app map dict_update_seq length]. rewrite Nat.add_0_r.
    pose proof (split_length c bad) as L.
    destruct (Py.split c bad) as [|k [|v [|x l]]]; simpl in L;
      try (rewrite <- L; reflexivity).
    lia.
  - inversion Hg as [|? ? Hs Hrest]; subst.
    cbn [app map dict_update_seq length].
    destruct (split_pair c s Hs) as (k & v & ->).
    rewrite IH by assumption. now rewrite Nat.add_succ_r.
Qed.

(** X1. The properties handed to the master come from the [--property]
    flags as [dict] reads them: every name occurs once, and its value is the
    one of the last flag that gives the name. *)
Theorem last_property_flag_wins
    gethomedir codes Builder_str master builder_name repo branch commit
    pull_request properties sources attach_on_failure st name ss pd :
  In (build_triggered name ss pd)
    (events_since st
       (snd (project_build gethomedir codes Builder_str master builder_name
               repo branch commit pull_request properties sources
               attach_on_failure st))) ->
  NoDup (map fst pd)
  /\ forall key, dict_get pd key = last_value "=" properties key.
Proof.
  intros H. apply triggered_build_full in H as (_ & _ & E).
  apply dict_update_seq_last in E as [N G].
  split; [apply N; constructor|].
  intros key. rewrite G. now destruct (last_value "=" properties key).
Qed.

Lemma last_property_flag_wins_witness :
  let pd := [("cores", "8"); ("mode", "debug")] in
  NoDup (map fst pd)
  /\ dict_get pd "cores" = Some "8"
  /\ last_value "=" ["cores=4"; "mode=debug"; "cores=8"] "cores" = Some "8".
Proof.
  intros pd.
  destruct (last_property_flag_wins Sample.gethomedir buildbot_results
              Sample.Builder_str (Sample.finishes 0) "test-builder" None
              "master" None None ["cores=4"; "mode=debug"; "cores=8"] []
              false Sample.start "test-builder"
              {| ss_codebase := EmptyString;
                 ss_repository := "https://github.com/ursa-labs/ursabot";
                 ss_branch := "master";
                 ss_revision := None;
                 ss_project := "ursabot" |} pd) as [N G].
  - vm_compute. find_event.
  - split; [exact N|]. split; [reflexivity|].
    rewrite <- (G "cores"). reflexivity.
Defined.

(** X2. The repository of the sourcestamp is the one given with [--repo]
    when that is not the empty string; with no [--repo], or an empty one, it
    is the repository of the project. *)
Theorem repository_override
    gethomedir codes Builder_str master builder_name repo branch commit
    pull_request properties sources attach_on_failure st name ss pd :
  In (build_triggered name ss pd)
    (events_since st
       (snd (project_build gethomedir codes Builder_str master builder_name
               repo branch commit pull_request properties sources
               attach_on_failure st))) ->
  (forall r, repo = Some r -> r <> EmptyString -> ss_repository ss = r)
  /\ (repo = None \/ repo = Some EmptyString ->
      ss_repository ss = p_repo (project st)).
Proof.
  intros H. apply triggered_build_full in H as (_ & -> & _).
  split.
  - intros r -> Hr. simpl. destruct r; [contradiction|reflexivity].
  - intros [->| ->]; reflexivity.
Qed.

Lemma repository_override_witness :
  let ss :=
    {| ss_codebase := EmptyString;
       ss_repository := "https://github.com/ursa-labs/ursabot";
       ss_branch := "master";
       ss_revision := None;
       ss_project := "ursabot" |} in
  ss_repository ss = p_repo Sample.the_project.
Proof.
  intros ss.
  refine (proj2 (repository_override Sample.gethomedir buildbot_results
                   Sample.Builder_str (Sample.finishes 0) "test-builder"
                   (Some EmptyString) "master" None None [] [] false
                   Sample.start "test-builder" ss [] _) (or_intror eq_refl)).
  vm_compute. find_event.
Defined.


(** X4. The first malformed [--mount-source] flag is the one the error
    names: when the builder exists, the flags before it hold one colon each
    and it does not, the command ends with the [ValueError] of [dict] that
    gives its position and the number of its pieces, whatever the flags
    after it and the [--property] flags are. *)
Theorem first_malformed_mount_is_named
    gethomedir codes Builder_str master builder_name repo branch commit
    pull_request properties good bad rest attach_on_failure st i b :
  Project_builder (project st) builder_name = Some (i, b) ->
  Forall (fun s => Py.count ":" s = 1) good ->
  Py.count ":" bad <> 1 ->
  fst (project_build gethomedir codes Builder_str master builder_name repo
         branch commit pull_request properties (good ++ bad :: rest)
         attach_on_failure st)
  = Raised (ValueError
      ("dictionary update sequence element #"
       ++ Py.str_int (Z.of_nat (length good)) ++ " has length "
       ++ Py.str_int (Z.of_nat (S (Py.count ":" bad)))
       ++ "; 2 is required")).
Proof.
  intros HB Hg Hb. rewrite build_ends. unfold outcome, py_dict.
  rewrite HB, (dict_update_seq_first_bad ":" good bad rest 0 [] Hg Hb).
  reflexivity.
Qed.

Lemma first_malformed_mount_is_named_witness :
  fst (project_build Sample.gethomedir buildbot_results Sample.Builder_str
         (Sample.finishes 0) "docker-builder" None "master" None None
         ["broken"] (["~/arrow:arrow"] ++ "/opt/parquet" :: ["a:b:c"])
         false Sample.start)
  = Raised (ValueError
      "dictionary update sequence element #1 has length 1; 2 is required").
Proof.
  apply (first_malformed_mount_is_named Sample.gethomedir buildbot_results
           Sample.Builder_str (Sample.finishes 0) "docker-builder" None
           "master" None None ["broken"] ["~/arrow:arrow"] "/opt/parquet"
           ["a:b:c"] false Sample.start 1 Sample.docker_builder).
  - reflexivity.
  - repeat constructor.
  - discriminate.
Defined.

(** ** What the volume injector leaves behind when it fails *)

Lemma source_volumes_fails gethomedir sources src dst e :
  In (src, dst) sources ->
  Pathlib.expanduser gethomedir (Pathlib.of_str src) = Raised e ->
  exists e', source_volumes gethomedir sources = Raised e'.
Proof.
  induction sources as [|[s d] sources IH]; intros I E; [destruct I|].
  cbn [source_volumes]. destruct I as [I|I].
  - injection I as -> ->. rewrite E. eauto.
  - destruct (Pathlib.expanduser gethomedir (Pathlib.of_str s)); [|eauto].
    destruct (IH I E) as [e' ->]. eauto.
Qed.

(** X5. [_use_local_sources] adds all the volumes or none: when the home
    directory of one host path cannot be found, the call raises and the
    state is exactly what it was, also when other entries, before or after,
    could be expanded. *)
Theorem injector_is_all_or_nothing gethomedir builder sources st src dst e :
  In (src, dst) sources ->
  Pathlib.expanduser gethomedir (Pathlib.of_str src) = Raised e ->
  exists e', _use_local_sources gethomedir builder sources st = (Raised e', st).
Proof.
  intros I E. rewrite use_local_sources_eq.
  destruct (source_volumes_fails _ _ _ _ _ I E) as [e' ->]. eauto.
Qed.

Lemma injector_is_all_or_nothing_witness :
  exists e',
    _use_local_sources Sample.gethomedir 1
      [("~/arrow", "arrow"); ("~nobody/parquet", "parquet")] Sample.start
    = (Raised e', Sample.start).
Proof.
  apply (injector_is_all_or_nothing Sample.gethomedir 1
           [("~/arrow", "arrow"); ("~nobody/parquet", "parquet")]
           Sample.start "~nobody/parquet" "parquet"
           (RuntimeError "Can't determine home directory for 'nobody'")).
  - right. left. reflexivity.
  - reflexivity.
Defined.

(** X6. When the class [Source] has no attribute [notReally], the call
    raises [AssertionError] only after the builder's volume list was
    extended: the volumes stay added, and the attribute stays missing. *)
Theorem failed_assertion_keeps_the_volumes
    gethomedir builder sources st vs :
  volumes_at st builder = Some vs ->
  Source_notReally st = None ->
  (forall src dst, In (src, dst) sources ->
   exists p,
     Pathlib.expanduser gethomedir (Pathlib.of_str src) = Returned p) ->
  exists st' volumes,
    _use_local_sources gethomedir builder sources st
    = (Raised AssertionError, st')
    /\ source_volumes gethomedir sources = Returned volumes
    /\ length volumes = length sources
    /\ volumes_at st' builder = Some (vs ++ volumes)
    /\ Source_notReally st' = None.
Proof.
  intros Hvs Hflag Hhome.
  destruct (source_volumes_total gethomedir sources Hhome) as [volumes V].
  exists (with_volumes st builder volumes), volumes.
  rewrite use_local_sources_eq, V, Hflag.
  repeat split.
  - exact (proj1 (source_volumes_nth _ _ _ V)).
  - now apply volumes_at_with_volumes.
  - exact Hflag.
Qed.

Lemma failed_assertion_keeps_the_volumes_witness :
  let st :=
    {| project := Sample.the_project;
       Source_notReally := None;
       trace := [] |} in
  exists st',
    _use_local_sources Sample.gethomedir 1 [("~/arrow", "arrow")] st
    = (Raised AssertionError, st')
    /\ volumes_at st' 1
       = Some
           [Interpolate "/var/cache:/cache:rw";
            Interpolate
              "/home/ursabot/arrow:%(prop:docker_workdir)s/%(prop:builddir)s/arrow:rw"].
Proof.
  intros st.
  destruct (failed_assertion_keeps_the_volumes Sample.gethomedir 1
              [("~/arrow", "arrow")] st [Interpolate "/var/cache:/cache:rw"])
    as (st' & volumes & E & V & _ & A & _).
  - reflexivity.
  - reflexivity.
  - intros src dst [H|[]]. injection H as <- <-. eexists. reflexivity.
  - exists st'. split; [exact E|].
    vm_compute in V. injection V as <-. exact A.
Defined.

(** ** What the build command changes *)

Lemma conclude_project codes master b ss pd attach_on_failure st :
  project (snd (conclude codes master b ss pd attach_on_failure st))
  = project st
  /\ Source_notReally
       (snd (conclude codes master b ss pd attach_on_failure st))
     = Source_notReally st.
Proof. unfold conclude. now destruct master. Qed.

Lemma py_dict_nil c : py_dict (map (Py.split c) []) = Returned [].
Proof. reflexivity. Qed.

(** X7. Without [--mount-source] the command leaves the project and the
    process flag alone: whatever the other arguments are and whatever the
    master does, the project with its builders and their volume lists, and
    [Source.notReally], are as they were. The trace only grows, and what is
    added starts with the start of the log observer. *)
Theorem no_mounts_leave_the_project_alone
    gethomedir codes Builder_str master builder_name repo branch commit
    pull_request properties attach_on_failure st :
  let st' :=
    snd (project_build gethomedir codes Builder_str master builder_name
           repo branch commit pull_request properties [] attach_on_failure
           st) in
  project st' = project st
  /\ Source_notReally st' = Source_notReally st
  /\ exists evs, trace st' = trace st ++ observer_start :: evs.
Proof.
  intros st'. subst st'. apply build_inv; intros; cbn [snd];
    try (rewrite py_dict_nil in *;
         match goal with
         | H : Returned [] = Returned ?sd, T : dict_truthy ?sd = true |- _ =>
             injection H as <-; discriminate T
         end);
    try (repeat split; eexists; reflexivity).
  destruct H2 as [[_ ->]|(T & _)].
  - destruct (conclude_project codes master b
                (the_sourcestamp (project st) repo branch commit
                   pull_request) pd attach_on_failure
                (add_events st (preamble Builder_str b))) as [P F].
    rewrite P, F. repeat split. unfold conclude.
    destruct master; cbn [snd]; rewrite ?add_events_app; eexists;
      reflexivity.
  - rewrite py_dict_nil in H0. injection H0 as <-. discriminate T.
Qed.

Lemma map_replace {A B} (f : A -> B) l : forall i x y,
  nth_error l i = Some x -> f y = f x ->
  map f (firstn i l ++ y :: skipn (S i) l) = map f l.
Proof.
  induction l as [|a l IH]; intros [|i] x y H E; simpl in *;
    try discriminate H.
  - injection H as ->. now rewrite E.
  - f_equal. now apply IH with (x := x).
Qed.

Lemma with_volumes_frame st i volumes :
  p_name (project (with_volumes st i volumes)) = p_name (project st)
  /\ p_repo (project (with_volumes st i volumes)) = p_repo (project st)
  /\ map b_name (p_builders (project (with_volumes st i volumes)))
     = map b_name (p_builders (project st))
  /\ map b_isdocker (p_builders (project (with_volumes st i volumes)))
     = map b_isdocker (p_builders (project st)).
Proof.
  unfold with_volumes, extend_volumes; simpl.
  destruct (nth_error (p_builders (project st)) i) as [b|] eqn:E;
    [|auto].
  repeat split; now apply map_replace with (x := b).
Qed.

(** From [st] to [st'] the project kept its name, its repository and its
    builders with their names and kinds; volumes were only appended, and
    only to a docker builder named [name], and only when [mounting]. *)
Definition only_appends (name : string) (mounting : bool) (st st' : State)
  : Prop :=
  p_name (project st') = p_name (project st)
  /\ p_repo (project st') = p_repo (project st)
  /\ map b_name (p_builders (project st'))
     = map b_name (p_builders (project st))
  /\ map b_isdocker (p_builders (project st'))
     = map b_isdocker (p_builders (project st))
  /\ forall j vs,
       volumes_at st j = Some vs ->
       exists extra,
         volumes_at st' j = Some (vs ++ extra)
         /\ (extra <> [] ->
             mounting = true
             /\ exists b,
                  nth_error (p_builders (project st)) j = Some b
                  /\ b_name b = name /\ b_isdocker b = true).

Lemma only_appends_same name mounting st st' :
  project st' = project st -> only_appends name mounting st st'.
Proof.
  intros E. unfold only_appends, volumes_at. rewrite E.
  repeat split; try reflexivity.
  intros j vs H. exists []. rewrite app_nil_r. split; [exact H|].
  intros N. now destruct N.
Qed.

Lemma only_appends_with_volumes name st i b volumes :
  nth_error (p_builders (project st)) i = Some b ->
  b_name b = name -> b_isdocker b = true ->
  only_appends name true st (with_volumes st i volumes).
Proof.
  intros Hn Hname Hd.
  destruct (with_volumes_frame st i volumes) as (A & B & C & D).
  unfold only_appends. repeat split; try assumption.
  intros j vs H. destruct (Nat.eq_dec j i) as [->|N].
  - exists volumes. split; [now apply volumes_at_with_volumes|].
    intros _. split; [reflexivity|]. now exists b.
  - exists []. rewrite app_nil_r. split.
    + now rewrite volumes_at_with_volumes_other.
    + intros F. now destruct F.
Qed.

Lemma only_appends_later name mounting st st' st'' :
  project st'' = project st' ->
  only_appends name mounting st st' -> only_appends name mounting st st''.
Proof.
  intros E. unfold only_appends, volumes_at. now rewrite E.
Qed.

Lemma truthy_dict_has_sources c sources sd :
  py_dict (map (Py.split c) sources) = Returned sd ->
  dict_truthy sd = true -> sources <> [].
Proof. intros H T ->. injection H as <-. discriminate T. Qed.

(** X8. Whatever its arguments and whatever the master does, the command
    leaves the project its name, its repository and its builders with their
    names and kinds. The only thing it changes in a builder is the volume
    list, and only by appending: a builder whose volumes grew is a docker
    builder with the requested name, and sources were given. *)
Theorem build_only_appends_volumes
    gethomedir codes Builder_str master builder_name repo branch commit
    pull_request properties sources attach_on_failure st :
  only_appends builder_name (negb (Nat.eqb (length sources) 0)) st
    (snd (project_build gethomedir codes Builder_str master builder_name
            repo branch commit pull_request properties sources
            attach_on_failure st)).
Proof.
  apply build_inv; intros; cbn [snd];
    try (apply only_appends_same; reflexivity).
  - apply Project_builder_found in H as [N Hn].
    pose proof (truthy_dict_has_sources _ _ _ H0 H2) as Hs.
    destruct sources; [contradiction|].
    apply only_appends_later with (st' := with_volumes st i volumes);
      [reflexivity|].
    now apply only_appends_with_volumes with (b := b).
  - destruct (conclude_project codes master b
                (the_sourcestamp (project st) repo branch commit
                   pull_request) pd attach_on_failure
                (add_events base (preamble Builder_str b))) as [P _].
    destruct H2 as [[_ ->]|(T & D & _ & volumes & _ & ->)].
    + apply only_appends_same. now rewrite P.
    + apply Project_builder_found in H as [N Hn].
      pose proof (truthy_dict_has_sources _ _ _ H0 T) as Hs.
      destruct sources; [contradiction|].
      apply only_appends_later with (st' := with_volumes st i volumes);
        [now rewrite P|].
      now apply only_appends_with_volumes with (b := b).
Qed.

(** ** The [project] group *)

Lemma MasterConfig_project_none projects name :
  ~ In name (map p_name projects) ->
  MasterConfig_project projects name = None.
Proof.
  induction projects as [|p ps IH]; intros H; simpl; [reflexivity|].
  destruct (String.eqb_spec (p_name p) name) as [E|_].
  - exfalso. apply H. now left.
  - apply IH. intros F. apply H. now right.
Qed.

Lemma MasterConfig_project_some projects name p :
  MasterConfig_project projects name = Some p ->
  p_name p = name
  /\ exists before after,
       projects = before ++ p :: after
       /\ ~ In name (map p_name before).
Proof.
  induction projects as [|q ps IH]; intros H; [discriminate H|].
  simpl in H. destruct (String.eqb_spec (p_name q) name) as [E|N].
  - injection H as <-. split; [exact E|]. exists [], ps. split; auto.
  - destruct (IH H) as (Hn & before & after & -> & Hb).
    split; [exact Hn|]. exists (q :: before), after. split; [reflexivity|].
    simpl. intros [F|F]; [contradiction|now apply Hb].
Qed.

(** X9. When the [project] group lets its command run, [obj['project']] is
    a project of the configuration and the rest of [obj] is as it was: with
    [--project name] it is a project of that name; with no [--project] it
    is the only project there is. *)
Theorem project_group_selects obj name obj' :
  project_group obj name = Returned obj' ->
  exists p,
    obj' = set_project obj p
    /\ In p (c_projects (o_config obj))
    /\ match name with
       | None => c_projects (o_config obj) = [p]
       | Some n => p_name p = n
       end.
Proof.
  unfold project_group. destruct name as [n|].
  - destruct (MasterConfig_project _ n) as [p|] eqn:E; [|discriminate].
    intros [= <-]. exists p.
    destruct (MasterConfig_project_some _ _ _ E)
      as (Hn & before & after & Hp & Hb).
    split; [reflexivity|]. split; [|exact Hn].
    rewrite Hp. apply in_or_app. right. now left.
  - destruct (c_projects (o_config obj)) as [|p [|q ps]]; try discriminate.
    intros [= <-]. exists p. repeat split. now left.
Qed.

Lemma project_group_selects_witness :
  exists p,
    project_group
      {| o_verbose := false;
         o_config := {| c_projects := [Sample.the_project] |};
         o_config_path := Pathlib.of_str "master.cfg";
         o_project := None |} None
    = Returned
        {| o_verbose := false;
           o_config := {| c_projects := [Sample.the_project] |};
           o_config_path := Pathlib.of_str "master.cfg";
           o_project := Some p |}
    /\ p = Sample.the_project.
Proof.
  destruct (project_group_selects
              {| o_verbose := false;
                 o_config := {| c_projects := [Sample.the_project] |};
                 o_config_path := Pathlib.of_str "master.cfg";
                 o_project := None |} None
              {| o_verbose := false;
                 o_config := {| c_projects := [Sample.the_project] |};
                 o_config_path := Pathlib.of_str "master.cfg";
                 o_project := Some Sample.the_project |} eq_refl)
    as (p & E & _ & P).
  exists p. injection P as <-. split; reflexivity.
Defined.

(** X10. The [project] group refuses, with a [UsageError] (exit status 2)
    that lists the names of all configured projects, exactly when no
    [--project] is given and the configuration does not hold exactly one
    project, or the given name is not the name of a project. A
    configuration with no project at all is refused with the message for
    several projects and an empty list. *)
Theorem project_group_refuses obj name :
  let projects := c_projects (o_config obj) in
  let refused :=
    match name with
    | None => length projects <> 1
    | Some n => ~ In n (map p_name projects)
    end in
  (refused ->
   exists message,
     project_group obj name = Raised (UsageError message)
     /\ exit_code (UsageError message) = 2%Z
     /\ forall p, In p projects -> occurs_in (p_name p) message)
  /\ (~ refused -> exists obj', project_group obj name = Returned obj')
  /\ (projects = [] ->
      project_group obj None
      = Raised (UsageError
          "Master config has multiple projects, one must be selected: ")).
Proof.
  intros projects refused. subst projects refused. unfold project_group.
  split; [|split].
  - destruct name as [n|]; intros R.
    + rewrite (MasterConfig_project_none _ _ R). eexists.
      split; [reflexivity|]. split; [reflexivity|].
      intros p I. do 3 apply occurs_in_left. apply occurs_in_join.
      now apply in_map.
    + destruct (Nat.eqb_spec (length (c_projects (o_config obj))) 1);
        [contradiction|].
      eexists. split; [reflexivity|]. split; [reflexivity|].
      intros p I. apply occurs_in_left, occurs_in_join. now apply in_map.
  - destruct name as [n|]; intros R.
    + destruct (MasterConfig_project _ n) as [p|] eqn:E; [eauto|].
      exfalso. apply R. intros I.
      clear R. induction (c_projects (o_config obj)) as [|q ps IH];
        [destruct I|].
      simpl in E. destruct (String.eqb_spec (p_name q) n) as [|N];
        [discriminate E|].
      destruct I as [I|I]; [contradiction|now apply IH].
    + destruct (c_projects (o_config obj)) as [|p [|q ps]];
        simpl in *; try (exfalso; apply R; discriminate); eauto.
  - intros ->. reflexivity.
Qed.

(** ** The describing command *)

(** The newline character. *)
Definition newline : ascii := ascii_of_nat 10.

Lemma split_no_separator c s : Py.count c s = 0 -> Py.split c s = [s].
Proof.
  induction s as [|a s IH]; simpl; [reflexivity|].
  destruct (Ascii.eqb a c); [discriminate|].
  intros H. now rewrite (IH H).
Qed.

Lemma split_append c a b :
  Py.count c a = 0 ->
  Py.split c (a ++ String c b) = a :: Py.split c b.
Proof.
  induction a as [|x a IH]; simpl.
  - intros _. rewrite Ascii.eqb_refl.
    destruct (Py.split c b) eqn:E; [|reflexivity].
    now destruct (split_not_nil c b).
  - destruct (Ascii.eqb x c); [discriminate|].
    intros H. now rewrite (IH H).
Qed.

(** Lines joined by a separator they do not contain split back into the
    same lines. *)
Lemma split_join c l :
  l <> [] -> Forall (fun s => Py.count c s = 0) l ->
  Py.split c (Py.join (String c EmptyString) l) = l.
Proof.
  unfold Py.join. induction l as [|x [|y r] IH]; intros N F.
  - now destruct N.
  - inversion F; subst. now apply split_no_separator.
  - inversion F as [|? ? Hx Hr]; subst.
    change (String.concat (String c EmptyString) (x :: y :: r))
      with (x ++ String c (String.concat (String c EmptyString) (y :: r)))%string.
    rewrite split_append by assumption. f_equal. apply IH; [discriminate|].
    exact Hr.
Qed.

(** X11. [project desc] writes these twelve messages to the console, in
    this order, and does nothing else: the name, the repository, and the
    three lists of images, workers and builders, each under its heading and
    followed by an empty line. A list is the [ul] of its values: split at
    its newlines it gives one line per value, in order (when there is a
    value and none holds a newline), and the empty string when there is no
    value. The list of builders is the very text that ends the error of
    [project build] for an unknown builder. *)
Theorem project_desc_lists_the_builders images workers st :
  let names := map b_name (p_builders (project st)) in
  project_desc images workers st
  = (Returned tt,
     add_events st
       [echo (Click.plain ("Name: " ++ p_name (project st)));
        echo (Click.plain ("Repo: " ++ p_repo (project st)));
        echo (Click.plain EmptyString);
        echo (Click.plain "Docker images:");
        echo (Click.plain (ul images));
        echo (Click.plain EmptyString);
        echo (Click.plain "Workers:");
        echo (Click.plain (ul workers));
        echo (Click.plain EmptyString);
        echo (Click.plain "Builders:");
        echo (Click.plain (ul names));
        echo (Click.plain EmptyString)])
  /\ (forall values,
      values <> [] ->
      Forall (fun v => Py.count newline v = 0) values ->
      Py.split newline (ul values)
      = map (fun v => (" - " ++ v)%string) values)
  /\ ul [] = EmptyString
  /\ forall builder_name,
       exists start,
         no_builder_message (project st) builder_name
         = (start ++ ul names)%string.
Proof.
  intros names. split; [|split; [|split]].
  - unfold project_desc, click_echo.
    rewrite bind_eq. unfold get at 1. cbv beta iota zeta.
    repeat (rewrite bind_eq, emit_eq; cbv beta iota;
            rewrite ?add_events_app).
    rewrite emit_eq, add_events_app. reflexivity.
  - intros values N F. unfold ul. apply split_join.
    + destruct values; [now destruct N|discriminate].
    + rewrite Forall_map. revert F. apply Forall_impl.
      intros v H. exact H.
  - reflexivity.
  - intros builder_name. unfold no_builder_message, ul. subst names.
    rewrite map_map. eexists.
    rewrite <- !append_assoc. reflexivity.
Qed.

(** ** The top-level group *)

(** X12. What the top-level group writes does not depend on how the
    loading of the configuration ended (a configuration, something else,
    [ConfigErrors] or another exception): the warnings that were recorded
    are written to standard error, in red and in their order, on every
    path. Without [--verbose] nothing else is written: what the
    configuration printed is dropped and no logger is touched. With
    [--verbose] the logger comes first, and what was captured from standard
    error, when there is any, comes before what was captured from standard
    output. The commands get their [obj] exactly when a [MasterConfig] was
    loaded; a value of another type ends in a [UsageError] naming the
    variable and the file. *)
Theorem recorded_warnings_are_always_shown
    load verbose config_path config_variable :
  let written := fst (ursabot load verbose config_path config_variable) in
  let ending := snd (ursabot load verbose config_path config_variable) in
  let shown :=
    map (fun w => to_stderr (Click.style w Click.red)) (l_warnings load) in
  (forall result',
     fst (ursabot
            {| l_result := result';
               l_warnings := l_warnings load;
               l_stdout := l_stdout load;
               l_stderr := l_stderr load |}
            verbose config_path config_variable)
     = written)
  /\ (verbose = false -> written = shown)
  /\ (verbose = true ->
      written
      = set_level_info "ursabot"
        :: shown
           ++ (if Py.truthy (l_stderr load)
               then [to_stderr (Click.style (l_stderr load) Click.red)]
               else [])
           ++ (if Py.truthy (l_stdout load)
               then [to_stdout (Click.plain (l_stdout load))]
               else []))
  /\ (forall obj,
      ending = Returned obj
      <-> exists config,
            l_result load = loaded_config config
            /\ obj = {| o_verbose := verbose;
                        o_config := config;
                        o_config_path := Pathlib.of_str config_path;
                        o_project := None |})
  /\ (forall errors,
      l_result load = load_config_errors errors ->
      ending = Raised (UrsabotConfigErrors errors))
  /\ (forall type_repr,
      l_result load = loaded_other type_repr ->
      exists message,
        ending = Raised (UsageError message)
        /\ occurs_in config_variable message
        /\ occurs_in config_path message).
Proof.
  intros written ending shown. subst written ending shown.
  unfold ursabot, ursabot_finally.
  split; [|split; [|split; [|split; [|split]]]].
  - intros result'. cbn [l_result l_warnings l_stdout l_stderr].
    destruct result', (l_result load); reflexivity.
  - intros ->. destruct (l_result load); cbn [fst app];
      now rewrite app_nil_r.
  - intros ->. destruct (l_result load); reflexivity.
  - intros obj. destruct (l_result load) as [config|ty|errors|e];
      cbn [snd]; split;
      try discriminate; try (intros (c & F & _); discriminate F).
    + intros [= <-]. eauto.
    + intros (c & [= <-] & ->). reflexivity.
  - intros errors ->. reflexivity.
  - intros type_repr ->. cbn [snd]. eexists. split; [reflexivity|]. split.
    + apply occurs_in_left, occurs_in_right, occurs_in_refl.
    + do 3 apply occurs_in_left. apply occurs_in_right, occurs_in_refl.
Qed.

(** ** The base directory of the master *)

Lemma parse_reversed_rooted cwd : forall parts,
  Py.startswith cwd "/" = true ->
  Py.truthy (fst (Pathlib.parse_reversed (parts ++ [cwd]))) = true.
Proof.
  intros parts H. induction parts as [|part parts IH].
  - cbn [app Pathlib.parse_reversed].
    destruct cwd as [|c cwd]; [discriminate H|].
    cbn [Py.truthy negb]. unfold Pathlib.splitroot. rewrite H.
    destruct (Nat.eqb _ 2); reflexivity.
  - cbn [app Pathlib.parse_reversed].
    destruct (negb (Py.truthy part)); [exact IH|].
    destruct (Pathlib.splitroot part) as [root rel].
    destruct (Py.truthy root) eqn:R; [exact R|].
    destruct (Pathlib.parse_reversed (parts ++ [cwd])) as [root' parsed'].
    exact IH.
Qed.

Lemma parse_parts_rooted cwd parts :
  Py.startswith cwd "/" = true ->
  Pathlib.is_absolute (Pathlib.parse_parts (cwd :: parts)) = true.
Proof.
  intros H. unfold Pathlib.is_absolute, Pathlib.parse_parts.
  cbn [rev]. pose proof (parse_reversed_rooted cwd (rev parts) H) as R.
  destruct (Pathlib.parse_reversed (rev parts ++ [cwd])) as [root parsed].
  exact R.
Qed.

Lemma bare_name_no_slash s :
  Py.count "/" s = 0 -> Py.startswith s "/" = false.
Proof.
  destruct s as [|c s]; [reflexivity|]. simpl.
  destruct (Ascii.eqb c "/"); [discriminate|reflexivity].
Qed.

Lemma parent_of_bare_name s :
  Py.count "/" s = 0 ->
  PathOps.parent (Pathlib.of_str s)
  = {| Pathlib._root := EmptyString; Pathlib._parts := [] |}.
Proof.
  intros H. unfold Pathlib.of_str, Pathlib.parse_parts.
  cbn [rev app Pathlib.parse_reversed].
  destruct s as [|c s]; [reflexivity|].
  cbn [Py.truthy negb]. unfold Pathlib.splitroot.
  rewrite (bare_name_no_slash _ H), (split_no_separator _ _ H).
  cbn [filter]. destruct (Pathlib.keeps (String c s)); reflexivity.
Qed.

(** X13. The base directory handed to buildbot,
    [config_path.parent.absolute()], is an absolute path whenever the
    working directory is one, whatever [--config-path] is. When the
    configuration is named by a bare file name, as the default [master.cfg]
    is, the base directory is the working directory itself. *)
Theorem basedir_is_absolute cwd obj :
  Py.startswith cwd "/" = true ->
  Pathlib.is_absolute (PathOps.basedir cwd obj) = true
  /\ forall load verbose config_path config_variable,
       snd (ursabot load verbose config_path config_variable) = Returned obj ->
       Py.count "/" config_path = 0 ->
       PathOps.basedir cwd obj = Pathlib.of_str cwd.
Proof.
  intros H. unfold PathOps.basedir, PathOps.absolute. split.
  - destruct (Pathlib.is_absolute (PathOps.parent (o_config_path obj)))
      eqn:A; [exact A|].
    now apply parse_parts_rooted.
  - intros load verbose config_path config_variable E N.
    unfold ursabot in E. destruct (l_result load); try discriminate E.
    injection E as <-. cbn [o_config_path].
    now rewrite parent_of_bare_name.
Qed.

Lemma basedir_is_absolute_witness :
  let obj :=
    {| o_verbose := false;
       o_config := {| c_projects := [Sample.the_project] |};
       o_config_path := Pathlib.of_str "ci/../master.cfg";
       o_project := None |} in
  Pathlib.is_absolute (PathOps.basedir "/srv/buildbot" obj) = true
  /\ Pathlib.str (PathOps.basedir "/srv/buildbot" obj)
     = "/srv/buildbot/ci/..".
Proof.
  intros obj. split; [|reflexivity].
  exact (proj1 (basedir_is_absolute "/srv/buildbot" obj eq_refl)).
Defined.

(** ** A zero exit status *)

(** X14. The command ends with exit status 0 only for a build that was
    triggered on the requested builder, completed, and ended with [SUCCESS]
    or [WARNINGS]. *)
Theorem zero_exit_means_success
    gethomedir codes Builder_str master builder_name repo branch commit
    pull_request properties sources attach_on_failure st :
  exit_status
    (fst (project_build gethomedir codes Builder_str master builder_name
            repo branch commit pull_request properties sources
            attach_on_failure st)) = 0%Z ->
  exists logs result state ss pd,
    master = build_returns logs result
    /\ complete result = true
    /\ results result = Some state
    /\ (state = SUCCESS codes \/ state = WARNINGS codes)
    /\ In (build_triggered builder_name ss pd)
         (events_since st
            (snd (project_build gethomedir codes Builder_str master
                    builder_name repo branch commit pull_request properties
                    sources attach_on_failure st))).
Proof.
  intros Z.
  destruct (build_outcome gethomedir codes Builder_str master builder_name
              repo branch commit pull_request properties sources
              attach_on_failure st)
    as [(e & E & _)|(i & b & pd & base & HB & T & _ & E)].
  - rewrite E in Z. destruct e; discriminate Z.
  - apply Project_builder_found in HB as [N _].
    rewrite E in *. rewrite conclude_events by assumption.
    unfold conclude, report, awaited_result, master_events in *.
    destruct master as [errors| |logs|logs result]; cbn [fst] in Z;
      try discriminate Z.
    destruct (complete result) eqn:C; cbn [negb] in Z; [|discriminate Z].
    destruct (results result) as [state|] eqn:R; [|discriminate Z].
    destruct (Z.eqb_spec state (SUCCESS codes)) as [S|_].
    + exists logs, result, state. do 2 eexists. repeat split; auto.
      rewrite <- N. apply in_or_app. right. cbn [app]. find_event.
    + destruct (Z.eqb_spec state (WARNINGS codes)) as [W|_].
      * exists logs, result, state. do 2 eexists. repeat split; auto.
        rewrite <- N. apply in_or_app. right. cbn [app]. find_event.
      * cbn [orb] in Z. destruct (Py.getitem _ _); discriminate Z.
Qed.

Lemma zero_exit_means_success_witness :
  exists logs result state ss pd,
    Sample.finishes 1 = build_returns logs result
    /\ complete result = true
    /\ results result = Some state
    /\ (state = SUCCESS buildbot_results
        \/ state = WARNINGS buildbot_results)
    /\ In (build_triggered "test-builder" ss pd)
         (events_since Sample.start
            (snd (project_build Sample.gethomedir buildbot_results
                    Sample.Builder_str (Sample.finishes 1) "test-builder"
                    None "master" None None [] [] false Sample.start))).
Proof.
  apply (zero_exit_means_success Sample.gethomedir buildbot_results
           Sample.Builder_str (Sample.finishes 1) "test-builder" None
           "master" None None [] [] false Sample.start).
  reflexivity.
Defined.

(** ** Host paths that start with a tilde *)

Lemma parse_reversed_root parts :
  let root := fst (Pathlib.parse_reversed parts) in
  root = EmptyString \/ root = "/" \/ root = "//".
Proof.
  induction parts as [|part parts IH]; cbn [Pathlib.parse_reversed];
    [now left|].
  destruct (negb (Py.truthy part)); [exact IH|].
  unfold Pathlib.splitroot.
  destruct (Py.startswith part "/").
  - destruct (Nat.eqb _ 2); cbn [Py.truthy fst]; auto.
  - cbn [Py.truthy].
    destruct (Pathlib.parse_reversed parts) as [root' parsed']. exact IH.
Qed.

(** The string of an absolute path starts with a slash. *)
Lemma str_of_absolute parts :
  Pathlib.is_absolute (Pathlib.parse_parts parts) = true ->
  Py.startswith (Pathlib.str (Pathlib.parse_parts parts)) "/" = true.
Proof.
  unfold Pathlib.is_absolute, Pathlib.str, Pathlib.parse_parts.
  pose proof (parse_reversed_root (rev parts)) as R.
  destruct (Pathlib.parse_reversed (rev parts)) as [root parsed].
  cbn [fst] in R. destruct R as [->|[->| ->]]; cbn; [discriminate|auto..].
Qed.

Lemma tilde_first_part src :
  Py.startswith src "~" = true ->
  exists user others,
    Pathlib.of_str src
    = {| Pathlib._root := EmptyString;
         Pathlib._parts := String "~" user :: others |}.
Proof.
  destruct src as [|c src]; [discriminate|].
  cbn [Py.startswith]. rewrite andb_true_r.
  destruct (Ascii.eqb_spec c "~") as [->|]; [intros _|discriminate].
  unfold Pathlib.of_str, Pathlib.parse_parts.
  cbn [rev app Pathlib.parse_reversed Py.truthy negb].
  unfold Pathlib.splitroot. cbn [Py.startswith Ascii.eqb Bool.eqb andb].
  cbn [Py.split].
  destruct (Py.split "/" src) as [|w ws] eqn:E;
    [now destruct (split_not_nil "/" src)|].
  cbn [Ascii.eqb Bool.eqb]. cbn [filter Pathlib.keeps Py.truthy andb].
  assert (String.eqb (String "~" w) "." = false) as ->
    by now destruct w.
  cbn [negb Py.truthy]. rewrite app_nil_r, rev_involutive. eauto.
Qed.

(** X15. A host path that starts with a tilde is mounted by an absolute
    path when the home directories are absolute: the volume made for it
    starts with a slash. *)
Theorem tilde_hosts_are_mounted_absolute
    gethomedir sources volumes k src dst :
  (forall user home,
   gethomedir user = Some home -> Py.startswith home "/" = true) ->
  source_volumes gethomedir sources = Returned volumes ->
  nth_error sources k = Some (src, dst) ->
  Py.startswith src "~" = true ->
  exists host,
    nth_error volumes k
    = Some (Interpolate
              (host ++ ":%(prop:docker_workdir)s/%(prop:builddir)s/"
               ++ dst ++ ":rw"))
    /\ Py.startswith host "/" = true.
Proof.
  intros Hhome V Hk Ht.
  destruct (source_volumes_nth _ _ _ V) as [_ N].
  destruct (N k src dst Hk) as (p & E & Hv).
  exists (Pathlib.str p). split; [exact Hv|].
  destruct (tilde_first_part src Ht) as (user & others & P).
  rewrite P in E. unfold Pathlib.expanduser in E.
  cbn [Pathlib._parts Pathlib._root Py.truthy negb Py.slice_to_1
       Py.slice_from_1 andb] in E.
  rewrite String.eqb_refl in E.
  destruct (gethomedir user) as [home|] eqn:G.
  - injection E as <-. apply str_of_absolute, parse_parts_rooted.
    now apply (Hhome user).
  - destruct (Py.truthy user); discriminate E.
Qed.

Lemma tilde_hosts_are_mounted_absolute_witness :
  exists host,
    nth_error
      [Interpolate
         "/opt/parquet:%(prop:docker_workdir)s/%(prop:builddir)s/parquet:rw";
       Interpolate
         "/home/ursabot/arrow:%(prop:docker_workdir)s/%(prop:builddir)s/arrow:rw"]
      1
    = Some (Interpolate
              (host ++ ":%(prop:docker_workdir)s/%(prop:builddir)s/"
               ++ "arrow" ++ ":rw"))
    /\ Py.startswith host "/" = true.
Proof.
  apply (tilde_hosts_are_mounted_absolute Sample.gethomedir
           [("/opt/parquet", "parquet"); ("~/arrow", "arrow")] _ 1
           "~/arrow" "arrow").
  - intros user home. unfold Sample.gethomedir.
    destruct (String.eqb user EmptyString); [|discriminate].
    intros [= <-]. reflexivity.
  - reflexivity.
  - reflexivity.
  - reflexivity.
Defined.
